(** * DeleteImages.py: deleting images below a minimum size

    A shallow embedding of [src/DeleteImages.py] and the properties of its
    scan / decide / delete / report pipeline.

    - Python integers are unbounded and are modelled by [Z].
    - A Python string is modelled by the [string] of its UTF-8 encoding.
      [str.strip] removes the characters for which [str.isspace] holds, the
      ones outside ASCII included.  [str.lower] maps the ASCII capitals and
      leaves every other byte as it is: the program only tests a lower-cased
      string for being a recognized extension or "yes" or "y", and the only
      characters outside ASCII whose lower-case form contains an ASCII
      character are U+0130 (to "i" and U+0307) and U+212A (to "k"), which
      make none of these strings, so both tests answer as in Python.
    - [Path.suffix] is the one of CPython 3.11's [pathlib].  Positions and
      lengths count bytes where Python counts characters; [suffix] only asks
      whether something stands before and after the last dot, which does not
      depend on the unit.
    - The target folder is a finite map from file names to directory entries.
      What [PIL.Image.open] and [Path.unlink] do on an entry is recorded in
      the entry, so the embedding is a total, executable function of the
      state of the folder.  The folder does not change during a run other
      than by the run itself.
    - [print], [input] and [iterdir] do not raise: the answer typed at the
      prompt is an argument of [main], and a target that is a directory can
      be listed.
    - [delete_small_images] returns [None] on every path; the embedding
      returns the final state of the target, the effects in order, and which
      [return] was reached with the local counters at that point. *)

From Stdlib Require Import ZArith String Ascii List Bool Lia.
From stdpp Require Import base option list gmap strings fin_maps.
Import ListNotations.

Local Open Scope string_scope.
Local Open Scope list_scope.
Local Open Scope Z_scope.

(** ** Python strings *)

Module PyStr.

(** [str.lower] on one ASCII character: [A]..[Z] go to [a]..[z]. *)
Definition lower_ascii (c : ascii) : ascii :=
  let n := N_of_ascii c in
  if ((65 <=? n) && (n <=? 90))%N then ascii_of_N (n + 32) else c.

(** [s.lower()] *)
Fixpoint lower (s : string) : string :=
  match s with
  | EmptyString => EmptyString
  | String c s' => String (lower_ascii c) (lower s')
  end.

(** The string made of the bytes [l]. *)
Definition of_bytes (l : list N) : string :=
  List.fold_right (fun n s => String (ascii_of_N n) s) EmptyString l.

(** The characters for which [str.isspace] holds, which are the ones
    [str.strip] removes, in UTF-8: U+0009 to U+000D, U+001C to U+0020,
    U+0085, U+00A0, U+1680, U+2000 to U+200A, U+2028, U+2029, U+202F, U+205F
    and U+3000. *)
Definition whitespace : list string :=
  List.map of_bytes
    [[9]; [10]; [11]; [12]; [13]; [28]; [29]; [30]; [31]; [32];
     [194; 133]; [194; 160]; [225; 154; 128];
     [226; 128; 128]; [226; 128; 129]; [226; 128; 130]; [226; 128; 131];
     [226; 128; 132]; [226; 128; 133]; [226; 128; 134]; [226; 128; 135];
     [226; 128; 136]; [226; 128; 137]; [226; 128; 138];
     [226; 128; 168]; [226; 128; 169]; [226; 128; 175];
     [226; 129; 159]; [227; 128; 128]]%N.

(** [s] without the prefix [p], when [s] starts with [p]. *)
Fixpoint after_prefix (p s : string) : option string :=
  match p, s with
  | EmptyString, _ => Some s
  | String a p', String b s' => if Ascii.eqb a b then after_prefix p' s' else None
  | String _ _, EmptyString => None
  end.

(** [s] without its first character, when that character is whitespace. *)
Definition after_space (s : string) : option string :=
  List.fold_right
    (fun w found => match after_prefix w s with Some r => Some r | None => found end)
    None whitespace.

(** Whitespace characters are removed from the left of [s] as long as there
    are some, and at most [fuel] of them. *)
Fixpoint lstrip_from (fuel : nat) (s : string) : string :=
  match fuel with
  | O => s
  | S fuel' =>
      match after_space s with
      | Some r => lstrip_from fuel' r
      | None => s
      end
  end.

(** [s.lstrip()]; [s] has no more whitespace characters than bytes. *)
Definition lstrip (s : string) : string := lstrip_from (String.length s) s.

(** [s] is made of whitespace characters only. *)
Definition blank (s : string) : bool :=
  match lstrip s with EmptyString => true | String _ _ => false end.

(** [s.rstrip()]: [s] without its longest suffix of whitespace characters. *)
Fixpoint rstrip (s : string) : string :=
  match s with
  | EmptyString => EmptyString
  | String c s' => if blank s then EmptyString else String c (rstrip s')
  end.

(** [s.strip()] *)
Definition strip (s : string) : string := rstrip (lstrip s).

(** [len(s)] *)
Definition len (s : string) : Z := Z.of_nat (String.length s).

(** [s.rfind(c)] for a one-character needle: the highest index at which
    [c] occurs, [-1] when it does not occur. *)
Fixpoint rfind (c : ascii) (s : string) : Z :=
  match s with
  | EmptyString => -1
  | String a s' =>
      let r := rfind c s' in
      if 0 <=? r then r + 1
      else if Ascii.eqb a c then 0 else -1
  end.

(** [s[i:]] for [0 <= i]. *)
Fixpoint drop (i : nat) (s : string) : string :=
  match i, s with
  | O, _ => s
  | S _, EmptyString => EmptyString
  | S i', String _ s' => drop i' s'
  end.

Definition slice_from (i : Z) (s : string) : string := drop (Z.to_nat i) s.

(** [x in l] for a list of strings. *)
Definition mem (x : string) (l : list string) : bool :=
  existsb (String.eqb x) l.

End PyStr.

(** ** pathlib *)

(** [PurePath.suffix] of a path whose final component is [name]:
<<
    i = name.rfind('.')
    if 0 < i < len(name) - 1: return name[i:]
    else: return ''
>> *)
Definition suffix (name : string) : string :=
  let i := PyStr.rfind "."%char name in
  if (0 <? i) && (i <? PyStr.len name - 1) then PyStr.slice_from i name
  else "".

(** ** The file system and the image library *)

(** The result of a call that may raise: the value, or the exception's text. *)
Inductive pyresult (A : Type) : Type :=
| Returns (a : A)
| Raises (e : string).
Arguments Returns {A} a.
Arguments Raises {A} e.

Definition Dimensions : Type := (Z * Z)%type.

Inductive entry_kind : Type := RegularFile | SubDirectory | OtherEntry.

(** One entry of the target folder.  [image] is what [Image.open(p).size]
    gives on it ([img.size] or the exception raised); [unlink_error] is the
    exception [p.unlink()] raises on it, if any. *)
Record entry : Type := Entry {
  kind : entry_kind;
  image : pyresult Dimensions;
  unlink_error : option string
}.

Abbreviation directory := (gmap string entry).

(** What is found at [folder_path]. *)
Inductive target : Type :=
| Missing
| NotADirectory
| Folder (d : directory).

(** ** Output and effects *)

(** The lines the program prints, one constructor per [print] call. *)
Inductive line : Type :=
| ErrNotExist (folder_path : string)
| ErrNotDir (folder_path : string)
| Scanning (folder_path : string)
| MinimumSize (min_width min_height : Z)
| DryRunMode
| Rule
| NoImageFiles
| Found (n : Z)
| Blank
| WarnCouldNotRead (folder_path name : string) (e : string)
| WouldDelete (name : string) (width height : Z)
| Deleted (name : string) (width height : Z)
| ErrorDeleting (name : string) (e : string)
| Kept (name : string) (width height : Z)
| Summary
| WouldBeDeleted (n : Z)
| FilesDeleted (n : Z)
| FilesKept (n : Z)
| FilesWithErrors (n : Z)
| WarnPermanent (width height : Z)
| FromFolder (folder_path : string)
| Cancelled.

(** The observable effects of a run, in order. *)
Inductive event : Type :=
| Print (l : line)
| Iterdir
| ImageOpen (name : string)
| Unlink (name : string)
| Input (response : string).

(** [Image.open(folder / name).size] in the folder [d]. *)
Definition Image_open (d : directory) (name : string) : pyresult Dimensions :=
  match d !! name with
  | Some e => image e
  | None => Raises "No such file or directory"
  end.

(** [(folder / name).unlink()] in the folder [d]: the new folder and the
    result.  A failed unlink leaves the folder as it is. *)
Definition unlink (d : directory) (name : string) : directory * pyresult unit :=
  match d !! name with
  | Some e =>
      match unlink_error e with
      | Some msg => (d, Raises msg)
      | None => (delete name d, Returns tt)
      end
  | None => (d, Raises "No such file or directory")
  end.

(** ** The program *)

(** [get_image_dimensions(file_path)]: the dimensions or [None], and the
    effects (the open, and the warning when it fails). *)
Definition get_image_dimensions (d : directory) (folder_path name : string)
  : option Dimensions * list event :=
  match Image_open d name with
  | Returns size => (Some size, [ImageOpen name])
  | Raises e => (None, [ImageOpen name; Print (WarnCouldNotRead folder_path name e)])
  end.

Definition image_extensions : list string :=
  [".jpg"; ".jpeg"; ".png"; ".bmp"; ".gif"; ".tiff"; ".tif"; ".webp"].

(** [is_image_file(file_path)] *)
Definition is_image_file (name : string) : bool :=
  PyStr.mem (PyStr.lower (suffix name)) image_extensions.

(** The three counters of [delete_small_images]. *)
Record counters : Type := Counters {
  deleted_count : Z;
  kept_count : Z;
  error_count : Z
}.

Definition zero_counters : counters := Counters 0 0 0.

(** [width < min_width or height < min_height] *)
Definition undersized (min_width min_height : Z) (size : Dimensions) : bool :=
  (fst size <? min_width) || (snd size <? min_height).

Section Run.

Variable folder_path : string.
Variables min_width min_height : Z.
Variable dry_run : bool.

(** The body of [for file_path in image_files]: the new folder, the new
    counters and the effects of this iteration. *)
Definition loop_body (d : directory) (c : counters) (name : string)
  : directory * counters * list event :=
  let '(dimensions, ev) := get_image_dimensions d folder_path name in
  match dimensions with
  | None =>
      (d, Counters (deleted_count c) (kept_count c) (error_count c + 1), ev)
  | Some (width, height) =>
      if undersized min_width min_height (width, height) then
        if dry_run then
          (d, c, ev ++ [Print (WouldDelete name width height)])
        else
          match unlink d name with
          | (d', Returns _) =>
              (d', Counters (deleted_count c + 1) (kept_count c) (error_count c),
               ev ++ [Unlink name; Print (Deleted name width height)])
          | (d', Raises e) =>
              (d', Counters (deleted_count c) (kept_count c) (error_count c + 1),
               ev ++ [Unlink name; Print (ErrorDeleting name e)])
          end
      else
        (d, Counters (deleted_count c) (kept_count c + 1) (error_count c),
         ev ++ [Print (Kept name width height)])
  end.

(** The whole [for] loop. *)
Fixpoint loop (image_files : list string) (d : directory) (c : counters)
  : directory * counters * list event :=
  match image_files with
  | [] => (d, c, [])
  | name :: rest =>
      let '(d1, c1, ev1) := loop_body d c name in
      let '(d2, c2, ev2) := loop rest d1 c1 in
      (d2, c2, ev1 ++ ev2)
  end.

End Run.

Definition is_file (e : entry) : bool :=
  match kind e with RegularFile => true | _ => false end.

(** [[f for f in folder.iterdir() if f.is_file()]], by name. *)
Definition all_files (d : directory) : list string :=
  List.map fst (List.filter (fun p => is_file (snd p)) (map_to_list d)).

(** [[f for f in all_files if is_image_file(f)]] *)
Definition image_files (d : directory) : list string :=
  List.filter is_image_file (all_files d).

(** How [delete_small_images] returns.  The function itself returns [None]
    on every path; the outcome records which [return] was taken and the
    values of the local counters there. *)
Inductive outcome : Type :=
| FolderDoesNotExist
| FolderIsNotADirectory
| NoImages
| Completed (candidates : Z) (c : counters).

(** The counters a run has, when it has any: lines 52-54 initialise them
    after the folder has been validated. *)
Definition counters_of (o : outcome) : option counters :=
  match o with
  | FolderDoesNotExist | FolderIsNotADirectory => None
  | NoImages => Some zero_counters
  | Completed _ c => Some c
  end.

Record result : Type := Result {
  final : target;
  effects : list event;
  returned : outcome
}.

(** The number the summary reports as deleted or as "would be deleted". *)
Definition reported_deleted (dry_run : bool) (candidates : Z) (c : counters) : Z :=
  if dry_run then candidates - kept_count c - error_count c
  else deleted_count c.

(** The lines printed after the loop. *)
Definition summary (dry_run : bool) (candidates : Z) (c : counters) : list event :=
  [Print Blank; Print Rule; Print Summary]
  ++ [Print (if dry_run then WouldBeDeleted (reported_deleted dry_run candidates c)
             else FilesDeleted (reported_deleted dry_run candidates c))]
  ++ [Print (FilesKept (kept_count c))]
  ++ (if 0 <? error_count c then [Print (FilesWithErrors (error_count c))] else []).

(** The lines printed before the files are looked at (lines 56-60), and the
    listing of the folder (line 63). *)
Definition banner (folder_path : string) (min_width min_height : Z)
    (dry_run : bool) : list event :=
  [Print (Scanning folder_path); Print (MinimumSize min_width min_height)]
  ++ (if dry_run then [Print DryRunMode] else [])
  ++ [Print Rule; Iterdir].

(** [delete_small_images(folder_path, min_width, min_height, dry_run)] run
    when [t] is what is at [folder_path]. *)
Definition delete_small_images (t : target) (folder_path : string)
    (min_width min_height : Z) (dry_run : bool) : result :=
  match t with
  | Missing => Result t [Print (ErrNotExist folder_path)] FolderDoesNotExist
  | NotADirectory => Result t [Print (ErrNotDir folder_path)] FolderIsNotADirectory
  | Folder d =>
      let files := image_files d in
      match files with
      | [] =>
          Result t (banner folder_path min_width min_height dry_run
                    ++ [Print NoImageFiles]) NoImages
      | _ =>
          let n := Z.of_nat (length files) in
          let '(d', c, ev) :=
            loop folder_path min_width min_height dry_run files d zero_counters in
          Result (Folder d')
                 (banner folder_path min_width min_height dry_run
                  ++ [Print (Found n); Print Blank] ++ ev ++ summary dry_run n c)
                 (Completed n c)
      end
  end.

(** The parsed command line. *)
Record args : Type := Args {
  folder : string;
  width : Z;
  height : Z;
  arg_dry_run : bool
}.

(** [response not in ['yes', 'y']], with
    [response = input(...).lower().strip()]. *)
Definition confirmed (typed : string) : bool :=
  PyStr.mem (PyStr.strip (PyStr.lower typed)) ["yes"; "y"].

(** How [main] returns: cancelled at the prompt, or after the scan. *)
Inductive main_outcome : Type :=
| OperationCancelled
| Scanned (o : outcome).

Record main_result : Type := MainResult {
  main_final : target;
  main_effects : list event;
  main_returned : main_outcome
}.

(** [main()], after [parse_args], when the operator types [typed] at the
    prompt (if there is one) and [t] is what is at [args.folder]. *)
Definition main (a : args) (typed : string) (t : target) : main_result :=
  let run := delete_small_images t (folder a) (width a) (height a) (arg_dry_run a) in
  if arg_dry_run a then
    MainResult (final run) (effects run) (Scanned (returned run))
  else
    let prompt :=
      [Print (WarnPermanent (width a) (height a)); Print (FromFolder (folder a));
       Input typed] in
    if confirmed typed then
      MainResult (final run) (prompt ++ effects run) (Scanned (returned run))
    else
      MainResult t (prompt ++ [Print Cancelled]) OperationCancelled.

(** ** Observers used in the statements *)

(** The file a line is about, for the lines printed per file. *)
Definition line_file (l : line) : option string :=
  match l with
  | WarnCouldNotRead _ name _ | WouldDelete name _ _ | Deleted name _ _
  | ErrorDeleting name _ | Kept name _ _ => Some name
  | _ => None
  end.

(** The file an effect touches or reports on. *)
Definition event_file (ev : event) : option string :=
  match ev with
  | Print l => line_file l
  | ImageOpen name | Unlink name => Some name
  | Iterdir | Input _ => None
  end.

(** The files opened, in order. *)
Definition opened (evs : list event) : list string :=
  flat_map (fun ev => match ev with ImageOpen name => [name] | _ => [] end) evs.

(** The files on which [unlink] was called, in order. *)
Definition unlinked (evs : list event) : list string :=
  flat_map (fun ev => match ev with Unlink name => [name] | _ => [] end) evs.

(** Whether an effect reads the file system or changes it. *)
Definition file_access (ev : event) : bool :=
  match ev with
  | Iterdir | ImageOpen _ | Unlink _ => true
  | Print _ | Input _ => false
  end.

(** What happens to one candidate, as a function of the folder it is in. *)
Inductive verdict : Type :=
| Unreadable (e : string)
| LargeEnough (w h : Z)
| WouldRemove (w h : Z)
| Removed (w h : Z)
| RemoveFailed (w h : Z) (e : string).

Definition verdict_of (min_width min_height : Z) (dry_run : bool)
    (d : directory) (name : string) : verdict :=
  match d !! name with
  | None => Unreadable "No such file or directory"
  | Some e =>
      match image e with
      | Raises msg => Unreadable msg
      | Returns (w, h) =>
          if (w <? min_width) || (h <? min_height) then
            if dry_run then WouldRemove w h
            else match unlink_error e with
                 | None => Removed w h
                 | Some msg => RemoveFailed w h msg
                 end
          else LargeEnough w h
      end
  end.

Definition is_removed (v : verdict) : bool :=
  match v with Removed _ _ => true | _ => false end.

Definition is_kept (v : verdict) : bool :=
  match v with LargeEnough _ _ => true | _ => false end.

Definition is_error (v : verdict) : bool :=
  match v with Unreadable _ | RemoveFailed _ _ _ => true | _ => false end.

Definition is_would_remove (v : verdict) : bool :=
  match v with WouldRemove _ _ => true | _ => false end.

(** The candidate went through the [if] of line 82. *)
Definition is_undersized (v : verdict) : bool :=
  match v with
  | WouldRemove _ _ | Removed _ _ | RemoveFailed _ _ _ => true
  | _ => false
  end.

(** The counters after a candidate with verdict [v]. *)
Definition bump (v : verdict) (c : counters) : counters :=
  Counters (deleted_count c + (if is_removed v then 1 else 0))
           (kept_count c + (if is_kept v then 1 else 0))
           (error_count c + (if is_error v then 1 else 0)).

(** The effects of an iteration on a candidate with verdict [v]. *)
Definition notices (folder_path name : string) (v : verdict) : list event :=
  match v with
  | Unreadable e => [ImageOpen name; Print (WarnCouldNotRead folder_path name e)]
  | LargeEnough w h => [ImageOpen name; Print (Kept name w h)]
  | WouldRemove w h => [ImageOpen name; Print (WouldDelete name w h)]
  | Removed w h => [ImageOpen name; Unlink name; Print (Deleted name w h)]
  | RemoveFailed w h e => [ImageOpen name; Unlink name; Print (ErrorDeleting name e)]
  end.

(** How many elements of [l] satisfy [f], as a Python integer. *)
Definition count {A : Type} (f : A -> bool) (l : list A) : Z :=
  Z.of_nat (length (List.filter f l)).

(** The counters after the candidates [l], each judged in the folder [d]. *)
Definition tally (min_width min_height : Z) (dry_run : bool)
    (d : directory) (l : list string) (c : counters) : counters :=
  fold_left (fun c name => bump (verdict_of min_width min_height dry_run d name) c) l c.

(** The effects of the candidates [l], each judged in the folder [d]. *)
Definition chronicle (folder_path : string) (min_width min_height : Z)
    (dry_run : bool) (d : directory) (l : list string) : list event :=
  flat_map
    (fun name => notices folder_path name
                   (verdict_of min_width min_height dry_run d name)) l.

(** The folder a run leaves: the candidates it removed are gone, every
    other entry is as it was. *)
Definition left_by_run (min_width min_height : Z) (dry_run : bool)
    (d d' : directory) : Prop :=
  forall k, d' !! k =
    if (if in_dec string_dec k (image_files d) then true else false)
       && is_removed (verdict_of min_width min_height dry_run d k)
    then None else d !! k.

(** The tests of the loop on a candidate, in the folder [d]. *)

(** [get_image_dimensions] returns [None]. *)
Definition read_fails (d : directory) (name : string) : bool :=
  match Image_open d name with Raises _ => true | Returns _ => false end.

(** The dimensions are read and [width < min_width or height < min_height]. *)
Definition reads_undersized (min_width min_height : Z)
    (d : directory) (name : string) : bool :=
  match Image_open d name with
  | Returns size => undersized min_width min_height size
  | Raises _ => false
  end.

(** The dimensions are read and the test of line 82 is false. *)
Definition reads_large_enough (min_width min_height : Z)
    (d : directory) (name : string) : bool :=
  match Image_open d name with
  | Returns size => negb (undersized min_width min_height size)
  | Raises _ => false
  end.

(** [file_path.unlink()] raises. *)
Definition unlink_fails (d : directory) (name : string) : bool :=
  match snd (unlink d name) with Raises _ => true | Returns _ => false end.

(** The three classes of candidates: the one counted in [kept_count], the
    one reported as deleted (or as "would be deleted"), and the one counted
    in [error_count]. *)
Definition counted_kept (min_width min_height : Z)
    (d : directory) (name : string) : bool :=
  reads_large_enough min_width min_height d name.

Definition counted_deleted (min_width min_height : Z) (dry_run : bool)
    (d : directory) (name : string) : bool :=
  reads_undersized min_width min_height d name
  && (dry_run || negb (unlink_fails d name)).

Definition counted_errored (min_width min_height : Z) (dry_run : bool)
    (d : directory) (name : string) : bool :=
  read_fails d name
  || (negb dry_run && reads_undersized min_width min_height d name
      && unlink_fails d name).

(** The would-delete count as the specification words it: the number of
    candidates whose dimensions are read and satisfy
    [width < min_width or height < min_height]. *)
Definition would_delete_spec (min_width min_height : Z) (d : directory) : Z :=
  count (reads_undersized min_width min_height d) (image_files d).

(** The recognized extensions, as the specification lists them. *)
Definition recognized : list string :=
  ["jpg"; "jpeg"; "png"; "bmp"; "gif"; "tiff"; "tif"; "webp"].

(** The suffix of [name], compared without regard to case, is one of the
    recognized extensions. *)
Definition has_recognized_suffix (name : string) : Prop :=
  exists ext, In ext recognized /\ PyStr.lower (suffix name) = ("." ++ ext)%string.

(** ** Statements that the program does not satisfy as they are worded *)

(** The scan proceeds exactly when what the operator typed is "yes" or "y"
    up to case. *)
Definition proceeds_iff_yes_up_to_case (a : args) (typed : string) (t : target)
  : Prop :=
  main_returned (main a typed t) <> OperationCancelled
  <-> (PyStr.lower typed = "yes" \/ PyStr.lower typed = "y").

(** After a run that is not a dry run, no candidate left in the folder is
    undersized, and a second run deletes nothing. *)
Definition second_run_finds_none (folder_path : string)
    (min_width min_height : Z) (d : directory) : Prop :=
  let r1 := delete_small_images (Folder d) folder_path min_width min_height false in
  let r2 := delete_small_images (final r1) folder_path min_width min_height false in
  unlinked (effects r2) = []
  /\ forall c, counters_of (returned r2) = Some c -> deleted_count c = 0.

(** ** Sample folders *)

Definition picture (w h : Z) : entry := Entry RegularFile (Returns (w, h)) None.

Definition corrupt : entry := Entry RegularFile (Raises "cannot identify image file") None.

Definition locked (w h : Z) : entry :=
  Entry RegularFile (Returns (w, h)) (Some "Permission denied").

(** Scenario A of the specification. *)
Definition scenario_a : directory :=
  <["a.jpg" := picture 800 600]> (<["b.png" := picture 200 200]> ∅).

(** Scenario C of the specification, next to a text file. *)
Definition scenario_c : directory :=
  <["c.webp" := corrupt]> (<["notes.txt" := picture 10 10]> ∅).

(** A small image that cannot be unlinked. *)
Definition locked_folder : directory := <["l.gif" := locked 100 100]> ∅.

(** ** Observers for the further properties *)

(** [s] is a sequence of whitespace characters, those [str.strip] removes. *)
Inductive all_space : string -> Prop :=
| all_space_nil : all_space ""
| all_space_cons (w s : string) :
    In w PyStr.whitespace -> all_space s -> all_space (w ++ s)%string.

(** No byte of [w] is a lower-case ASCII letter. *)
Fixpoint no_lower_case (w : string) : bool :=
  match w with
  | EmptyString => true
  | String b w' =>
      ((N_of_ascii b <? 97) || (122 <? N_of_ascii b))%N && no_lower_case w'
  end.

(** U+00A0, the no-break space. *)
Definition nbsp : string := PyStr.of_bytes [194; 160]%N.

(** The per-file lines, by kind. *)
Definition kept_notice (ev : event) : bool :=
  match ev with Print (Kept _ _ _) => true | _ => false end.

Definition deleted_notice (ev : event) : bool :=
  match ev with Print (Deleted _ _ _) => true | _ => false end.

Definition would_delete_notice (ev : event) : bool :=
  match ev with Print (WouldDelete _ _ _) => true | _ => false end.

Definition error_notice (ev : event) : bool :=
  match ev with
  | Print (WarnCouldNotRead _ _ _) | Print (ErrorDeleting _ _) => true
  | _ => false
  end.

(** In the list [l], every occurrence of [y] comes after an occurrence of
    [x]. *)
Definition precedes {A : Type} (x y : A) (l : list A) : Prop :=
  forall pre post, l = pre ++ y :: post -> In x pre.

(** A folder with a sub-directory named like an image. *)
Definition album : directory :=
  <["holiday.jpg" := Entry SubDirectory (Raises "Is a directory") None]>
    (<["a.jpg" := picture 800 600]> ∅).

(** Closes an equation, or a membership in a concrete list, by evaluation. *)
Ltac by_evaluation :=
  vm_compute; first [reflexivity | repeat (first [left; reflexivity | right])].

(** ** The loop, one candidate at a time *)

Lemma loop_body_verdict folder_path min_width min_height dry_run
    (d : directory) (c : counters) (name : string) :
  let v := verdict_of min_width min_height dry_run d name in
  loop_body folder_path min_width min_height dry_run d c name
  = (if is_removed v then delete name d else d, bump v c,
     notices folder_path name v).
Proof.
  unfold loop_body, get_image_dimensions, Image_open, unlink, verdict_of,
    undersized, bump; cbn.
  destruct (d !! name) as [e|]; cbn.
  - destruct (image e) as [[w h]|msg]; cbn.
    + destruct ((w <? min_width) || (h <? min_height)); cbn.
      * destruct dry_run; cbn.
        -- destruct c; cbn. repeat f_equal; lia.
        -- destruct (unlink_error e); cbn; repeat f_equal; lia.
      * repeat f_equal; lia.
    + repeat f_equal; lia.
  - repeat f_equal; lia.
Qed.

(** ** Candidates *)

Lemma fmap_fst_map {A B : Type} (l : list (A * B)) : l.*1 = List.map fst l.
Proof. induction l as [|x l IH]; cbn; [reflexivity | now rewrite IH]. Qed.

Lemma NoDup_map_fst_filter {A B : Type} (f : A * B -> bool) (l : list (A * B)) :
  List.NoDup (List.map fst l) -> List.NoDup (List.map fst (List.filter f l)).
Proof.
  induction l as [|x l IH]; cbn; intros H; [constructor|].
  inversion H as [|? ? Hx Hl]; subst.
  destruct (f x); cbn; [constructor|]; auto.
  intros Hin. apply Hx.
  apply in_map_iff in Hin as (y & Hy & Hin).
  apply filter_In in Hin as [Hin _].
  apply in_map_iff. eauto.
Qed.

Lemma all_files_NoDup (d : directory) : List.NoDup (all_files d).
Proof.
  unfold all_files. apply NoDup_map_fst_filter.
  rewrite <- fmap_fst_map. apply NoDup_ListNoDup, NoDup_fst_map_to_list.
Qed.

Lemma image_files_NoDup (d : directory) : List.NoDup (image_files d).
Proof. unfold image_files. apply List.NoDup_filter, all_files_NoDup. Qed.

Lemma in_all_files (d : directory) (name : string) :
  In name (all_files d) <-> exists e, d !! name = Some e /\ is_file e = true.
Proof.
  unfold all_files. rewrite in_map_iff. split.
  - intros ([k e] & Hk & Hin). cbn in Hk. subst k.
    apply filter_In in Hin as [Hin Hf]. cbn in Hf.
    apply list_elem_of_In, elem_of_map_to_list in Hin. eauto.
  - intros (e & He & Hf). exists (name, e). split; [reflexivity|].
    apply filter_In. split; [|exact Hf].
    apply list_elem_of_In, elem_of_map_to_list. exact He.
Qed.

Lemma in_image_files (d : directory) (name : string) :
  In name (image_files d)
  <-> exists e, d !! name = Some e /\ is_file e = true /\ is_image_file name = true.
Proof.
  unfold image_files. rewrite filter_In, in_all_files. split.
  - intros [(e & He & Hf) Hi]. eauto.
  - intros (e & He & Hf & Hi). eauto.
Qed.

(** ** The loop as a whole *)

Section LoopFacts.

Variable folder_path : string.
Variables min_width min_height : Z.
Variable dry_run : bool.

Local Abbreviation verdict_in := (verdict_of min_width min_height dry_run).
Local Abbreviation run_loop := (loop folder_path min_width min_height dry_run).
Local Abbreviation tally := (tally min_width min_height dry_run).
Local Abbreviation chronicle := (chronicle folder_path min_width min_height dry_run).

Lemma verdict_of_delete_ne (d : directory) (a name : string) :
  a <> name -> verdict_in (delete a d) name = verdict_in d name.
Proof. intros Hne. unfold verdict_of. now rewrite lookup_delete_ne. Qed.

Lemma tally_ext (d1 d2 : directory) (l : list string) (c : counters) :
  (forall name, In name l -> verdict_in d1 name = verdict_in d2 name) ->
  tally d1 l c = tally d2 l c.
Proof.
  revert c. induction l as [|a l IH]; cbn; intros c H; [reflexivity|].
  rewrite (H a) by now left. apply IH. intros; apply H; now right.
Qed.

Lemma chronicle_ext (d1 d2 : directory) (l : list string) :
  (forall name, In name l -> verdict_in d1 name = verdict_in d2 name) ->
  chronicle d1 l = chronicle d2 l.
Proof.
  induction l as [|a l IH]; cbn; intros H; [reflexivity|].
  rewrite (H a) by now left. f_equal. apply IH. intros; apply H; now right.
Qed.

(** With distinct candidates, every candidate is judged as it was in the
    folder at enumeration time, and only removed candidates leave it. *)
Lemma loop_spec (l : list string) :
  List.NoDup l ->
  forall (d : directory) (c : counters),
  exists d' : directory,
    run_loop l d c = (d', tally d l c, chronicle d l)
    /\ forall k, d' !! k =
         if (if in_dec string_dec k l then true else false)
            && is_removed (verdict_in d k)
         then None else d !! k.
Proof.
  induction l as [|a l IH]; intros Hnd d c.
  - exists d. split; [reflexivity|]. intros k. reflexivity.
  - inversion Hnd as [|? ? Ha Hl]; subst.
    cbn [loop]. rewrite loop_body_verdict.
    set (v := verdict_in d a).
    set (d1 := if is_removed v then delete a d else d).
    assert (Hsame : forall name, In name l -> verdict_in d1 name = verdict_in d name).
    { intros name Hin. subst d1. destruct (is_removed v); [|reflexivity].
      apply verdict_of_delete_ne. intros ->. contradiction. }
    destruct (IH Hl d1 (bump v c)) as (d' & Hrun & Hlook).
    exists d'. rewrite Hrun. split.
    + cbn. fold v. rewrite (tally_ext d1 d), (chronicle_ext d1 d) by assumption.
      reflexivity.
    + intros k. rewrite Hlook.
      destruct (in_dec string_dec k (a :: l)) as [Hin|Hnin];
        destruct (in_dec string_dec k l) as [Hin'|Hnin']; cbn [andb].
      * rewrite (Hsame k Hin').
        destruct (is_removed (verdict_in d k)); [reflexivity|].
        subst d1. destruct (is_removed v); [|reflexivity].
        apply lookup_delete_ne. intros ->. contradiction.
      * destruct Hin as [->|Hin]; [|contradiction].
        fold v. subst d1. destruct (is_removed v); [|reflexivity].
        apply lookup_delete_eq.
      * exfalso. apply Hnin. now right.
      * subst d1. destruct (is_removed v); [|reflexivity].
        apply lookup_delete_ne. intros ->. apply Hnin. now left.
Qed.

End LoopFacts.

(** ** The counters as counts of candidates *)

Section Tally.

Variables min_width min_height : Z.
Variable dry_run : bool.
Variable d : directory.

Local Abbreviation verdict_in := (verdict_of min_width min_height dry_run d).
Local Abbreviation tally_in := (tally min_width min_height dry_run d).

Lemma tally_counts (l : list string) (c : counters) :
  deleted_count (tally_in l c)
  = deleted_count c + count (fun x => is_removed (verdict_in x)) l
  /\ kept_count (tally_in l c)
     = kept_count c + count (fun x => is_kept (verdict_in x)) l
  /\ error_count (tally_in l c)
     = error_count c + count (fun x => is_error (verdict_in x)) l.
Proof.
  unfold tally, count. revert c.
  induction l as [|a l IH]; intros c; cbn [fold_left List.filter].
  - cbn. lia.
  - destruct (IH (bump (verdict_in a) c)) as (Hd & Hk & He).
    rewrite Hd, Hk, He. unfold bump; cbn [deleted_count kept_count error_count].
    destruct (is_removed (verdict_in a)), (is_kept (verdict_in a)),
      (is_error (verdict_in a)); cbn [length]; lia.
Qed.

Lemma verdict_one_of (x : string) :
  (if is_removed (verdict_in x) then 1 else 0)
  + (if is_kept (verdict_in x) then 1 else 0)
  + (if is_error (verdict_in x) then 1 else 0)
  + (if is_would_remove (verdict_in x) then 1 else 0) = 1.
Proof. destruct (verdict_in x); reflexivity. Qed.

Lemma count_nonneg {A : Type} (f : A -> bool) (l : list A) : 0 <= count f l.
Proof. unfold count. lia. Qed.

Lemma count_partition (l : list string) :
  count (fun x => is_removed (verdict_in x)) l
  + count (fun x => is_kept (verdict_in x)) l
  + count (fun x => is_error (verdict_in x)) l
  + count (fun x => is_would_remove (verdict_in x)) l
  = Z.of_nat (length l).
Proof.
  unfold count. induction l as [|a l IH]; [reflexivity|].
  cbn [List.filter]. pose proof (verdict_one_of a) as H1.
  destruct (is_removed (verdict_in a)), (is_kept (verdict_in a)),
    (is_error (verdict_in a)), (is_would_remove (verdict_in a));
    cbn [length] in *; lia.
Qed.

End Tally.

Lemma count_ext {A : Type} (f g : A -> bool) (l : list A) :
  (forall x, In x l -> f x = g x) -> count f l = count g l.
Proof.
  unfold count. intros H. f_equal. f_equal.
  induction l as [|a l IH]; [reflexivity|]. cbn.
  rewrite (H a) by now left.
  rewrite IH; [reflexivity|]. intros; apply H; now right.
Qed.

Lemma count_zero {A : Type} (f : A -> bool) (l : list A) :
  (forall x, In x l -> f x = false) -> count f l = 0.
Proof.
  intros H. rewrite (count_ext f (fun _ => false) l H).
  unfold count. clear H. induction l as [|a l IH]; [reflexivity | exact IH].
Qed.

(** ** A run on an existing folder *)

Lemma nil_or_not {A : Type} (l : list A) : l = [] \/ l <> [].
Proof. destruct l; [now left | now right]. Qed.

Lemma in_notices folder_path (x : string) (v : verdict) (ev : event) :
  In ev (notices folder_path x v) -> event_file ev = Some x.
Proof.
  destruct v; cbn; intros H;
    repeat (destruct H as [<-|H]; [reflexivity|]); contradiction.
Qed.

Lemma in_chronicle folder_path min_width min_height dry_run
    (d : directory) (l : list string) (ev : event) (name : string) :
  event_file ev = Some name ->
  In ev (chronicle folder_path min_width min_height dry_run d l)
  <-> In name l
      /\ In ev (notices folder_path name
                  (verdict_of min_width min_height dry_run d name)).
Proof.
  intros Hf. unfold chronicle. rewrite in_flat_map. split.
  - intros (x & Hx & Hin). pose proof (in_notices _ _ _ _ Hin) as Hx'.
    rewrite Hf in Hx'. injection Hx' as ->. auto.
  - intros [Hin Hev]. eauto.
Qed.

Lemma banner_no_file folder_path min_width min_height dry_run (ev : event) :
  In ev (banner folder_path min_width min_height dry_run) -> event_file ev = None.
Proof.
  unfold banner. destruct dry_run; cbn; intros H;
    repeat (destruct H as [<-|H]; [reflexivity|]); contradiction.
Qed.

Lemma summary_no_file dry_run n c (ev : event) :
  In ev (summary dry_run n c) -> event_file ev = None.
Proof.
  unfold summary. destruct dry_run, (0 <? error_count c); cbn; intros H;
    repeat (destruct H as [<-|H]; [reflexivity|]); contradiction.
Qed.

Section RunFacts.

Variable folder_path : string.
Variables min_width min_height : Z.
Variable dry_run : bool.
Variable d : directory.

Local Abbreviation run :=
  (delete_small_images (Folder d) folder_path min_width min_height dry_run).
Local Abbreviation verdict_in := (verdict_of min_width min_height dry_run d).
Local Abbreviation final_tally :=
  (tally min_width min_height dry_run d (image_files d) zero_counters).
Local Abbreviation candidates := (Z.of_nat (length (image_files d))).

Local Abbreviation left_by_run :=
  (left_by_run min_width min_height dry_run d).

Lemma run_completed :
  image_files d <> [] ->
  exists d' : directory,
    run = Result (Folder d')
            (banner folder_path min_width min_height dry_run
             ++ [Print (Found candidates); Print Blank]
             ++ chronicle folder_path min_width min_height dry_run d (image_files d)
             ++ summary dry_run candidates final_tally)
            (Completed candidates final_tally)
    /\ left_by_run d'.
Proof.
  intros Hne.
  destruct (loop_spec folder_path min_width min_height dry_run
              (image_files d) (image_files_NoDup d) d zero_counters)
    as (d' & Hloop & Hlook).
  exists d'. split; [|exact Hlook].
  unfold delete_small_images.
  destruct (image_files d) as [|a l] eqn:E; [contradiction|].
  rewrite Hloop. reflexivity.
Qed.

Lemma run_no_images :
  image_files d = [] ->
  run = Result (Folder d)
          (banner folder_path min_width min_height dry_run ++ [Print NoImageFiles])
          NoImages.
Proof. intros E. unfold delete_small_images. now rewrite E. Qed.

Lemma run_counters : counters_of (returned run) = Some final_tally.
Proof.
  destruct (nil_or_not (image_files d)) as [E|E].
  - rewrite run_no_images by assumption. rewrite E. reflexivity.
  - destruct (run_completed E) as (d' & -> & _). reflexivity.
Qed.

Lemma run_final : exists d' : directory, final run = Folder d' /\ left_by_run d'.
Proof.
  destruct (nil_or_not (image_files d)) as [E|E].
  - exists d. rewrite run_no_images by assumption. split; [reflexivity|].
    intros k. rewrite E. reflexivity.
  - destruct (run_completed E) as (d' & -> & Hl). eauto.
Qed.

(** The effects about a file are those of its iteration of the loop. *)
Lemma run_effects_about (ev : event) (name : string) :
  event_file ev = Some name ->
  In ev (effects run)
  <-> In name (image_files d) /\ In ev (notices folder_path name (verdict_in name)).
Proof.
  intros Hf.
  destruct (nil_or_not (image_files d)) as [E|E].
  - rewrite run_no_images by assumption. cbn [effects]. rewrite E. split.
    + intros H. apply in_app_or in H as [H|[<-|[]]].
      * apply banner_no_file in H. congruence.
      * discriminate.
    + intros [[] _].
  - destruct (run_completed E) as (d' & -> & _). cbn [effects].
    rewrite <- (in_chronicle folder_path min_width min_height dry_run d _ ev name Hf).
    split.
    + intros H. apply in_app_or in H as [H|H].
      { apply banner_no_file in H. congruence. }
      apply in_app_or in H as [[<-|[<-|[]]]|H]; try discriminate.
      apply in_app_or in H as [H|H]; [exact H|].
      apply summary_no_file in H. congruence.
    + intros H. apply in_or_app. right. apply in_or_app. right.
      apply in_or_app. now left.
Qed.

End RunFacts.

(** ** Verdicts and the tests of the loop *)

Section Verdicts.

Variables min_width min_height : Z.
Variable dry_run : bool.
Variable d : directory.

Local Abbreviation verdict_in := (verdict_of min_width min_height dry_run d).

Ltac verdict_cases x :=
  unfold verdict_of, counted_kept, counted_deleted, counted_errored,
    read_fails, reads_undersized, reads_large_enough, unlink_fails,
    Image_open, unlink, undersized;
  destruct (d !! x) as [[k [[w h]|msg] [u|]]|]; cbn;
  try destruct ((w <? min_width) || (h <? min_height));
  destruct dry_run; reflexivity.

Lemma is_kept_verdict x :
  is_kept (verdict_in x) = counted_kept min_width min_height d x.
Proof. verdict_cases x. Qed.

Lemma is_error_verdict x :
  is_error (verdict_in x) = counted_errored min_width min_height dry_run d x.
Proof. verdict_cases x. Qed.

Lemma is_removed_verdict x :
  is_removed (verdict_in x)
  = negb dry_run && counted_deleted min_width min_height dry_run d x.
Proof. verdict_cases x. Qed.

Lemma is_would_remove_verdict x :
  is_would_remove (verdict_in x)
  = dry_run && counted_deleted min_width min_height dry_run d x.
Proof. verdict_cases x. Qed.

Lemma is_undersized_verdict x :
  is_undersized (verdict_in x) = reads_undersized min_width min_height d x.
Proof. verdict_cases x. Qed.

Lemma classes_exclusive x :
  (if counted_kept min_width min_height d x then 1 else 0)
  + (if counted_deleted min_width min_height dry_run d x then 1 else 0)
  + (if counted_errored min_width min_height dry_run d x then 1 else 0) = 1.
Proof. verdict_cases x. Qed.

Lemma count_kept_verdict l :
  count (fun x => is_kept (verdict_in x)) l
  = count (counted_kept min_width min_height d) l.
Proof. apply count_ext. intros x _. apply is_kept_verdict. Qed.

Lemma count_error_verdict l :
  count (fun x => is_error (verdict_in x)) l
  = count (counted_errored min_width min_height dry_run d) l.
Proof. apply count_ext. intros x _. apply is_error_verdict. Qed.

Lemma count_removed_verdict l :
  count (fun x => is_removed (verdict_in x)) l
  = if dry_run then 0
    else count (counted_deleted min_width min_height dry_run d) l.
Proof.
  pose proof is_removed_verdict as H. destruct dry_run.
  - apply count_zero. intros x _. apply H.
  - apply count_ext. intros x _. apply H.
Qed.

Lemma count_would_remove_verdict l :
  count (fun x => is_would_remove (verdict_in x)) l
  = if dry_run
    then count (counted_deleted min_width min_height dry_run d) l
    else 0.
Proof.
  pose proof is_would_remove_verdict as H. destruct dry_run.
  - apply count_ext. intros x _. apply H.
  - apply count_zero. intros x _. apply H.
Qed.

(** The counters at the end of the loop, class by class. *)
Lemma final_counters (l : list string) :
  let c := tally min_width min_height dry_run d l zero_counters in
  kept_count c = count (counted_kept min_width min_height d) l
  /\ error_count c = count (counted_errored min_width min_height dry_run d) l
  /\ deleted_count c
     = (if dry_run then 0
        else count (counted_deleted min_width min_height dry_run d) l)
  /\ reported_deleted dry_run (Z.of_nat (length l)) c
     = count (counted_deleted min_width min_height dry_run d) l.
Proof.
  intros c.
  destruct (tally_counts min_width min_height dry_run d l zero_counters)
    as (Hd & Hk & He).
  pose proof (count_partition min_width min_height dry_run d l) as Hsum.
  fold c in Hd, Hk, He. cbn in Hd, Hk, He.
  rewrite count_kept_verdict in Hk, Hsum.
  rewrite count_error_verdict in He, Hsum.
  rewrite count_removed_verdict in Hd, Hsum.
  rewrite count_would_remove_verdict in Hsum.
  unfold reported_deleted.
  destruct dry_run; repeat split; lia.
Qed.

Lemma classes_sum (l : list string) :
  count (counted_kept min_width min_height d) l
  + count (counted_deleted min_width min_height dry_run d) l
  + count (counted_errored min_width min_height dry_run d) l
  = Z.of_nat (length l).
Proof.
  pose proof (count_partition min_width min_height dry_run d l) as Hsum.
  rewrite count_kept_verdict, count_error_verdict, count_removed_verdict,
    count_would_remove_verdict in Hsum.
  destruct dry_run; lia.
Qed.

End Verdicts.

(** ** The counters partition the candidates *)

(** C1. When the folder is valid and holds at least one candidate, the run
    completes with counters such that kept + deleted (would-delete under
    dry-run) + errored is the number of candidates; each counter is the number
    of candidates of its class, and every candidate is in exactly one of the
    three classes. *)
Theorem counters_partition_candidates
    (d : directory) (folder_path : string) (min_width min_height : Z)
    (dry_run : bool) :
  image_files d <> [] ->
  exists c : counters,
    returned (delete_small_images (Folder d) folder_path min_width min_height dry_run)
    = Completed (Z.of_nat (length (image_files d))) c
    /\ kept_count c
       + reported_deleted dry_run (Z.of_nat (length (image_files d))) c
       + error_count c
       = Z.of_nat (length (image_files d))
    /\ kept_count c = count (counted_kept min_width min_height d) (image_files d)
    /\ reported_deleted dry_run (Z.of_nat (length (image_files d))) c
       = count (counted_deleted min_width min_height dry_run d) (image_files d)
    /\ error_count c
       = count (counted_errored min_width min_height dry_run d) (image_files d)
    /\ (dry_run = false ->
        deleted_count c + kept_count c + error_count c
        = Z.of_nat (length (image_files d)))
    /\ forall name,
         In name (image_files d) ->
         (if counted_kept min_width min_height d name then 1 else 0)
         + (if counted_deleted min_width min_height dry_run d name then 1 else 0)
         + (if counted_errored min_width min_height dry_run d name then 1 else 0)
         = 1.
Proof.
  intros Hne.
  destruct (run_completed folder_path min_width min_height dry_run d Hne)
    as (d' & Hrun & _).
  eexists. rewrite Hrun. split; [reflexivity|].
  destruct (final_counters min_width min_height dry_run d (image_files d))
    as (Hk & He & Hd & Hr).
  repeat split; try assumption.
  - rewrite Hk, He, Hr.
    pose proof (classes_sum min_width min_height dry_run d (image_files d)). lia.
  - intros ->. rewrite Hk, He, Hd.
    pose proof (classes_sum min_width min_height false d (image_files d)). lia.
  - intros name _. apply classes_exclusive.
Qed.

(** ** Effects on files *)

Lemma in_opened (evs : list event) (name : string) :
  In name (opened evs) <-> In (ImageOpen name) evs.
Proof.
  unfold opened. rewrite in_flat_map. split.
  - intros (ev & Hin & Hn). destruct ev; cbn in Hn; try contradiction.
    destruct Hn as [<-|[]]. exact Hin.
  - intros Hin. exists (ImageOpen name). split; [exact Hin | now left].
Qed.

Lemma in_unlinked (evs : list event) (name : string) :
  In name (unlinked evs) <-> In (Unlink name) evs.
Proof.
  unfold unlinked. rewrite in_flat_map. split.
  - intros (ev & Hin & Hn). destruct ev; cbn in Hn; try contradiction.
    destruct Hn as [<-|[]]. exact Hin.
  - intros Hin. exists (Unlink name). split; [exact Hin | now left].
Qed.

Lemma nil_of_no_member {A : Type} (l : list A) : (forall x, ~ In x l) -> l = [].
Proof. destruct l as [|a l]; [reflexivity|]. intros H. destruct (H a). now left. Qed.

Lemma unlink_in_notices folder_path (name : string) (v : verdict) :
  In (Unlink name) (notices folder_path name v)
  <-> is_undersized v && negb (is_would_remove v) = true.
Proof.
  destruct v; cbn; split; intros H; try discriminate; auto;
    repeat (destruct H as [H|H]; try discriminate); contradiction.
Qed.

Section FileEffects.

Variable folder_path : string.
Variables min_width min_height : Z.
Variable dry_run : bool.
Variable d : directory.

Local Abbreviation run :=
  (delete_small_images (Folder d) folder_path min_width min_height dry_run).
Local Abbreviation verdict_in := (verdict_of min_width min_height dry_run d).

(** [unlink] is called on the undersized candidates of a run that is not
    a dry run, and on nothing else. *)
Lemma run_unlinked (name : string) :
  In name (unlinked (effects run))
  <-> In name (image_files d) /\ dry_run = false
      /\ reads_undersized min_width min_height d name = true.
Proof.
  rewrite in_unlinked, (run_effects_about _ _ _ _ _ (Unlink name) name eq_refl).
  rewrite unlink_in_notices, is_undersized_verdict, is_would_remove_verdict.
  unfold counted_deleted.
  destruct dry_run, (reads_undersized min_width min_height d name),
    (unlink_fails d name); cbn; intuition discriminate.
Qed.

(** Every candidate is opened, and nothing else is. *)
Lemma run_opened (name : string) :
  In name (opened (effects run)) <-> In name (image_files d).
Proof.
  rewrite in_opened, (run_effects_about _ _ _ _ _ (ImageOpen name) name eq_refl).
  split; [tauto|]. intros Hin. split; [exact Hin|].
  destruct (verdict_in name); now left.
Qed.

(** An entry the run does not remove is as it was. *)
Lemma run_keeps (name : string) :
  (In name (image_files d) -> dry_run = false ->
   reads_undersized min_width min_height d name = true ->
   unlink_fails d name = true) ->
  exists d' : directory, final run = Folder d' /\ d' !! name = d !! name.
Proof.
  intros H. destruct (run_final folder_path min_width min_height dry_run d)
    as (d' & Hf & Hl).
  exists d'. split; [exact Hf|]. rewrite Hl.
  destruct (in_dec string_dec name (image_files d)) as [Hin|Hnin];
    [|reflexivity]. cbn [andb].
  rewrite is_removed_verdict. unfold counted_deleted.
  destruct dry_run; [reflexivity|]. cbn [negb andb orb].
  destruct (reads_undersized min_width min_height d name) eqn:Hu;
    [|reflexivity].
  rewrite (H Hin eq_refl eq_refl). reflexivity.
Qed.

End FileEffects.

(** ** Invalid folders *)

(** C4. When the target does not exist or is not a directory, the run only
    prints the reason: it has no counters, the target is as it was, nothing is
    listed, opened or unlinked, and no line about a file is printed, whatever
    the thresholds and the dry-run flag. *)
Theorem invalid_folder_aborts
    (t : target) (folder_path : string) (min_width min_height : Z)
    (dry_run : bool) :
  t = Missing \/ t = NotADirectory ->
  let r := delete_small_images t folder_path min_width min_height dry_run in
  (returned r = FolderDoesNotExist \/ returned r = FolderIsNotADirectory)
  /\ counters_of (returned r) = None
  /\ final r = t
  /\ (effects r = [Print (ErrNotExist folder_path)]
      \/ effects r = [Print (ErrNotDir folder_path)])
  /\ forall ev, In ev (effects r) -> file_access ev = false /\ event_file ev = None.
Proof.
  intros [-> | ->]; cbn; repeat split; auto;
    destruct H as [<-|[]]; reflexivity.
Qed.

Lemma invalid_folder_aborts_witness :
  let r := delete_small_images Missing "photos" 400 400 false in
  (returned r = FolderDoesNotExist \/ returned r = FolderIsNotADirectory)
  /\ counters_of (returned r) = None
  /\ final r = Missing
  /\ (effects r = [Print (ErrNotExist "photos")]
      \/ effects r = [Print (ErrNotDir "photos")])
  /\ forall ev, In ev (effects r) -> file_access ev = false /\ event_file ev = None.
Proof. apply (invalid_folder_aborts Missing "photos" 400 400 false). left. reflexivity. Defined.

(** ** Dry runs *)

(** C7. A dry run leaves the target as it is and calls [unlink] on nothing;
    a second dry run right after it is the same run: same counters, same
    effects. *)
Theorem dry_run_idempotent
    (t : target) (folder_path : string) (min_width min_height : Z) :
  final (delete_small_images t folder_path min_width min_height true) = t
  /\ unlinked (effects (delete_small_images t folder_path min_width min_height true))
     = []
  /\ delete_small_images
       (final (delete_small_images t folder_path min_width min_height true))
       folder_path min_width min_height true
     = delete_small_images t folder_path min_width min_height true.
Proof.
  assert (Hfinal :
    final (delete_small_images t folder_path min_width min_height true) = t).
  { destruct t as [| |d]; try reflexivity.
    destruct (run_keeps folder_path min_width min_height true d) with (name := "")
      as (d' & Hf & _); [discriminate|].
    rewrite Hf. f_equal. apply map_eq. intros k.
    destruct (run_keeps folder_path min_width min_height true d k)
      as (d'' & Hf' & Hk); [discriminate|].
    rewrite Hf in Hf'. injection Hf' as <-. exact Hk. }
  split; [exact Hfinal|]. split; [|now rewrite Hfinal].
  destruct t as [| |d]; try reflexivity.
  apply nil_of_no_member. intros name Hin.
  apply run_unlinked in Hin as (_ & Hdry & _). discriminate.
Qed.

(** C9. Under dry-run [deleted_count] stays 0; the summary prints
    [len(image_files) - kept_count - error_count], and this number is the
    number of candidates whose dimensions are read and are below the
    threshold in width or in height. *)
Theorem would_delete_derived_equals_spec
    (d : directory) (folder_path : string) (min_width min_height : Z) :
  image_files d <> [] ->
  exists c : counters,
    returned (delete_small_images (Folder d) folder_path min_width min_height true)
    = Completed (Z.of_nat (length (image_files d))) c
    /\ deleted_count c = 0
    /\ In (Print (WouldBeDeleted
                    (Z.of_nat (length (image_files d)) - kept_count c - error_count c)))
          (effects (delete_small_images (Folder d) folder_path
                      min_width min_height true))
    /\ Z.of_nat (length (image_files d)) - kept_count c - error_count c
       = would_delete_spec min_width min_height d.
Proof.
  intros Hne.
  destruct (run_completed folder_path min_width min_height true d Hne)
    as (d' & Hrun & _).
  eexists. rewrite Hrun. split; [reflexivity|].
  destruct (final_counters min_width min_height true d (image_files d))
    as (_ & _ & Hd & Hr).
  split; [exact Hd|]. split.
  - cbn [effects]. apply in_or_app. right. apply in_or_app. right.
    apply in_or_app. right. unfold summary, reported_deleted.
    right. right. right. now left.
  - unfold reported_deleted in Hr. rewrite Hr. unfold would_delete_spec.
    apply count_ext. intros x _. unfold counted_deleted.
    now rewrite orb_true_l, andb_true_r.
Qed.

(** ** The size test *)

Lemma verdict_of_read min_width min_height dry_run (d : directory)
    (name : string) (w h : Z) :
  Image_open d name = Returns (w, h) ->
  verdict_of min_width min_height dry_run d name
  = if undersized min_width min_height (w, h) then
      if dry_run then WouldRemove w h
      else match snd (unlink d name) with
           | Returns _ => Removed w h
           | Raises e => RemoveFailed w h e
           end
    else LargeEnough w h.
Proof.
  unfold Image_open, verdict_of, unlink, undersized.
  destruct (d !! name) as [e|]; [|discriminate].
  intros ->. cbn. destruct ((w <? min_width) || (h <? min_height)); [|reflexivity].
  destruct dry_run; [reflexivity|]. now destruct (unlink_error e).
Qed.

Lemma undersized_iff min_width min_height (w h : Z) :
  undersized min_width min_height (w, h) = true <-> w < min_width \/ h < min_height.
Proof. unfold undersized. cbn. rewrite orb_true_iff, !Z.ltb_lt. reflexivity. Qed.

(** C2. A candidate whose dimensions [(w, h)] are read goes through the
    undersized branch exactly when [w < min_width] or [h < min_height]: it is
    then not kept, it gets the would-delete notice under dry-run, [unlink] is
    called on it otherwise, and it is deleted when that call succeeds.  A
    candidate of exactly the minimum width and height is kept. *)
Theorem undersized_iff_strictly_below
    (d : directory) (folder_path : string) (min_width min_height : Z)
    (dry_run : bool) (name : string) (w h : Z) :
  In name (image_files d) ->
  Image_open d name = Returns (w, h) ->
  let r := delete_small_images (Folder d) folder_path min_width min_height dry_run in
  ((w < min_width \/ h < min_height) <-> ~ In (Print (Kept name w h)) (effects r))
  /\ (dry_run = true ->
      ((w < min_width \/ h < min_height)
       <-> In (Print (WouldDelete name w h)) (effects r)))
  /\ (dry_run = false ->
      ((w < min_width \/ h < min_height) <-> In (Unlink name) (effects r)))
  /\ (dry_run = false -> unlink_fails d name = false ->
      ((w < min_width \/ h < min_height)
       <-> In (Print (Deleted name w h)) (effects r)))
  /\ (dry_run = false -> unlink_fails d name = false ->
      ((w < min_width \/ h < min_height)
       <-> exists d' : directory, final r = Folder d' /\ d' !! name = None))
  /\ (w = min_width -> h = min_height ->
      In (Print (Kept name w h)) (effects r)
      /\ exists d' : directory, final r = Folder d' /\ d' !! name = d !! name).
Proof.
  intros Hin Hread r. subst r.
  pose proof (verdict_of_read min_width min_height dry_run d name w h Hread) as Hv.
  pose proof (undersized_iff min_width min_height w h) as Hu.
  assert (Hsome : exists e, d !! name = Some e).
  { unfold Image_open in Hread. destruct (d !! name); [eauto | discriminate]. }
  destruct Hsome as (e & He).
  destruct (run_final folder_path min_width min_height dry_run d)
    as (d' & Hf & Hl).
  specialize (Hl name).
  destruct (in_dec string_dec name (image_files d)) as [_|Hn]; [|contradiction].
  cbn [andb] in Hl.
  rewrite !(fun ev pf => run_effects_about folder_path min_width min_height
                           dry_run d ev name pf) by reflexivity.
  rewrite Hf. rewrite Hv in *. unfold unlink_fails.
  destruct (undersized min_width min_height (w, h)) eqn:U.
  - assert (Hc : w < min_width \/ h < min_height) by now apply Hu.
    destruct dry_run.
    + cbn. repeat split; intros; try discriminate; try lia; auto;
        try (intuition discriminate); intuition congruence.
    + destruct (snd (unlink d name)) eqn:Hs; cbn in *.
      * repeat split; intros; try discriminate; try lia; auto;
          try (intuition discriminate); try (intuition congruence).
        exists d'. split; [reflexivity | exact Hl].
      * repeat split; intros; try discriminate; try lia; auto;
          try (intuition discriminate); intuition congruence.
  - assert (Hc : ~ (w < min_width \/ h < min_height)).
    { intros Hc. apply Hu in Hc. discriminate. }
    cbn in *. repeat split; intros; try discriminate; try tauto;
      try (intuition discriminate).
    + destruct H1 as (d'' & Hd'' & Hnone). injection Hd'' as <-. congruence.
    + exists d'. split; [reflexivity | exact Hl].
Qed.

(** ** Files that are not candidates *)

Lemma count_same_members {A : Type} (f : A -> bool) (l l' : list A) :
  List.NoDup l -> List.NoDup l' -> (forall x, In x l <-> In x l') ->
  count f l = count f l'.
Proof.
  intros Hl Hl' Hmem. unfold count. f_equal.
  apply Permutation.Permutation_length, Permutation.NoDup_Permutation.
  - now apply List.NoDup_filter.
  - now apply List.NoDup_filter.
  - intros x. rewrite !filter_In, Hmem. reflexivity.
Qed.

Lemma length_same_members {A : Type} (l l' : list A) :
  List.NoDup l -> List.NoDup l' -> (forall x, In x l <-> In x l') ->
  length l = length l'.
Proof.
  intros Hl Hl' Hmem.
  now apply Permutation.Permutation_length, Permutation.NoDup_Permutation.
Qed.

Section Bystander.

Variable folder_path : string.
Variables min_width min_height : Z.
Variable dry_run : bool.
Variable d : directory.
Variable name : string.
Hypothesis not_candidate : ~ In name (image_files d).

Lemma image_files_delete (x : string) :
  In x (image_files (delete name d)) <-> In x (image_files d).
Proof.
  rewrite !in_image_files. split.
  - intros (e & He & Hf & Hi). apply lookup_delete_Some in He as [_ He]. eauto.
  - intros (e & He & Hf & Hi). exists e. split; [|auto].
    apply lookup_delete_Some. split; [|exact He].
    intros <-. apply not_candidate. apply in_image_files. eauto.
Qed.

Lemma lookup_delete_candidate (x : string) :
  In x (image_files d) -> delete name d !! x = d !! x.
Proof.
  intros Hin. apply lookup_delete_ne. intros <-. contradiction.
Qed.

Lemma count_delete (f g : string -> bool) :
  (forall x, In x (image_files d) -> f x = g x) ->
  count f (image_files (delete name d)) = count g (image_files d).
Proof.
  intros H.
  rewrite (count_same_members f _ (image_files d)).
  - now apply count_ext.
  - apply image_files_NoDup.
  - apply image_files_NoDup.
  - apply image_files_delete.
Qed.

(** Without the file the run returns the same thing: as many candidates,
    the same counters. *)
Lemma returned_without :
  returned (delete_small_images (Folder (delete name d)) folder_path
              min_width min_height dry_run)
  = returned (delete_small_images (Folder d) folder_path
                min_width min_height dry_run).
Proof.
  assert (Hlen : length (image_files (delete name d)) = length (image_files d)).
  { apply length_same_members; auto using image_files_NoDup, image_files_delete. }
  assert (Hc : tally min_width min_height dry_run (delete name d)
                 (image_files (delete name d)) zero_counters
               = tally min_width min_height dry_run d (image_files d) zero_counters).
  { destruct (final_counters min_width min_height dry_run (delete name d)
                (image_files (delete name d))) as (Hk & He & Hd & _).
    destruct (final_counters min_width min_height dry_run d (image_files d))
      as (Hk' & He' & Hd' & _).
    assert (Hv : forall x, In x (image_files d) ->
              verdict_of min_width min_height dry_run (delete name d) x
              = verdict_of min_width min_height dry_run d x).
    { intros x Hx. unfold verdict_of. now rewrite lookup_delete_candidate. }
    rewrite (count_delete _ (counted_kept min_width min_height d)) in Hk.
    2:{ intros x Hx. rewrite <- !is_kept_verdict with (dry_run := dry_run).
        now rewrite Hv. }
    rewrite (count_delete _ (counted_errored min_width min_height dry_run d)) in He.
    2:{ intros x Hx. rewrite <- !is_error_verdict. now rewrite Hv. }
    assert (Hd2 : deleted_count
                    (tally min_width min_height dry_run (delete name d)
                       (image_files (delete name d)) zero_counters)
                  = deleted_count
                      (tally min_width min_height dry_run d (image_files d)
                         zero_counters)).
    { rewrite Hd, Hd'. destruct dry_run; [reflexivity|].
      apply count_delete. intros x Hx.
      pose proof (is_removed_verdict min_width min_height false (delete name d) x) as H1.
      pose proof (is_removed_verdict min_width min_height false d x) as H2.
      cbn [negb andb] in H1, H2. rewrite <- H1, <- H2. now rewrite Hv. }
    rewrite <- Hk', <- He' in *.
    destruct (tally min_width min_height dry_run (delete name d) _ _),
      (tally min_width min_height dry_run d _ _); cbn in *. congruence. }
  destruct (nil_or_not (image_files d)) as [E|E].
  - assert (E' : image_files (delete name d) = []).
    { apply nil_of_no_member. intros x Hx. apply image_files_delete in Hx.
      rewrite E in Hx. contradiction. }
    now rewrite !run_no_images.
  - assert (E' : image_files (delete name d) <> []).
    { intros E'. rewrite E' in Hlen. destruct (image_files d); [congruence | discriminate]. }
    destruct (run_completed folder_path min_width min_height dry_run _ E)
      as (d1 & -> & _).
    destruct (run_completed folder_path min_width min_height dry_run _ E')
      as (d2 & -> & _).
    cbn [returned]. now rewrite Hlen, Hc.
Qed.

End Bystander.

Lemma is_image_file_iff (name : string) :
  is_image_file name = true <-> has_recognized_suffix name.
Proof.
  unfold is_image_file, PyStr.mem, has_recognized_suffix.
  rewrite existsb_exists. split.
  - intros (x & Hin & Heq). apply String.eqb_eq in Heq. rewrite Heq.
    cbn in Hin.
    repeat (destruct Hin as [<-|Hin];
            [eexists; split; [|reflexivity]; cbn; tauto|]).
    contradiction.
  - intros (ext & Hin & Heq). exists ("." ++ ext)%string. split.
    + cbn in Hin.
      repeat (destruct Hin as [<-|Hin]; [cbn; tauto|]). contradiction.
    + apply String.eqb_eq. exact Heq.
Qed.

(** C3. A regular file of the folder is a candidate exactly when its suffix,
    lower-cased, is one of the recognized extensions.  A file with another
    suffix is never opened and never unlinked, no line is printed about it, it
    is still in the folder after the run, and the run returns what it returns
    on the folder without this file: it is counted nowhere. *)
Theorem candidate_iff_recognized_suffix
    (d : directory) (name : string) (e : entry)
    (folder_path : string) (min_width min_height : Z) (dry_run : bool) :
  d !! name = Some e ->
  is_file e = true ->
  let r := delete_small_images (Folder d) folder_path min_width min_height dry_run in
  (In name (image_files d) <-> has_recognized_suffix name)
  /\ (~ has_recognized_suffix name ->
      ~ In name (opened (effects r))
      /\ ~ In name (unlinked (effects r))
      /\ (forall ev, In ev (effects r) -> event_file ev <> Some name)
      /\ (exists d' : directory, final r = Folder d' /\ d' !! name = Some e)
      /\ returned (delete_small_images (Folder (delete name d)) folder_path
                     min_width min_height dry_run)
         = returned r).
Proof.
  intros He Hf r. subst r.
  assert (Hiff : In name (image_files d) <-> has_recognized_suffix name).
  { rewrite in_image_files, <- is_image_file_iff. split.
    - intros (e' & _ & _ & Hi). exact Hi.
    - intros Hi. eauto. }
  split; [exact Hiff|]. intros Hno.
  assert (Hnc : ~ In name (image_files d)) by (rewrite Hiff; exact Hno).
  repeat split.
  - rewrite run_opened. exact Hnc.
  - rewrite run_unlinked. tauto.
  - intros ev Hin Hev.
    apply (run_effects_about folder_path min_width min_height dry_run d ev name Hev)
      in Hin as [Hin _]. contradiction.
  - destruct (run_keeps folder_path min_width min_height dry_run d name)
      as (d' & Hd' & Hk); [intros; contradiction|].
    exists d'. split; [exact Hd'|]. now rewrite Hk.
  - now apply returned_without.
Qed.

(** ** Every candidate is processed *)

Lemma opened_app (l1 l2 : list event) : opened (l1 ++ l2) = opened l1 ++ opened l2.
Proof. unfold opened. apply flat_map_app. Qed.

Lemma opened_chronicle folder_path min_width min_height dry_run
    (d : directory) (l : list string) :
  opened (chronicle folder_path min_width min_height dry_run d l) = l.
Proof.
  induction l as [|a l IH]; [reflexivity|].
  unfold chronicle in *. cbn [flat_map]. rewrite opened_app, IH.
  destruct (verdict_of min_width min_height dry_run d a); reflexivity.
Qed.

Lemma run_opened_all folder_path min_width min_height dry_run (d : directory) :
  opened (effects (delete_small_images (Folder d) folder_path
                     min_width min_height dry_run))
  = image_files d.
Proof.
  destruct (nil_or_not (image_files d)) as [E|E].
  - rewrite run_no_images by assumption. rewrite E.
    unfold banner. now destruct dry_run.
  - destruct (run_completed folder_path min_width min_height dry_run d E)
      as (d' & -> & _).
    cbn [effects]. rewrite !opened_app, opened_chronicle.
    unfold banner, summary.
    destruct dry_run, (0 <? error_count _); cbn; now rewrite app_nil_r.
Qed.

Lemma count_pos {A : Type} (f : A -> bool) (l : list A) (x : A) :
  In x l -> f x = true -> 1 <= count f l.
Proof.
  intros Hin Hf. unfold count.
  assert (H : In x (List.filter f l)) by (apply filter_In; auto).
  destruct (List.filter f l); [contradiction | cbn [length]; lia].
Qed.

Lemma run_final_same folder_path min_width min_height dry_run (d : directory) :
  (forall name, In name (image_files d) -> dry_run = false ->
                reads_undersized min_width min_height d name = true ->
                unlink_fails d name = true) ->
  final (delete_small_images (Folder d) folder_path min_width min_height dry_run)
  = Folder d.
Proof.
  intros H.
  destruct (run_final folder_path min_width min_height dry_run d) as (d' & Hf & _).
  rewrite Hf. f_equal. apply map_eq. intros k.
  destruct (run_keeps folder_path min_width min_height dry_run d k (H k))
    as (d'' & Hf' & Hk).
  rewrite Hf in Hf'. injection Hf' as <-. exact Hk.
Qed.

(** ** Errors on single files *)

(** C5. A candidate that cannot be read, or whose deletion fails, does not
    stop the run: the run completes, every candidate is opened, the candidate
    is counted in [error_count] and reported (the warning of the reader, or
    the error of the deletion), and its entry in the folder is as it was. *)
Theorem per_file_errors_not_fatal
    (d : directory) (folder_path : string) (min_width min_height : Z)
    (dry_run : bool) (name : string) :
  In name (image_files d) ->
  counted_errored min_width min_height dry_run d name = true ->
  let r := delete_small_images (Folder d) folder_path min_width min_height dry_run in
  exists c : counters,
    returned r = Completed (Z.of_nat (length (image_files d))) c
    /\ error_count c
       = count (counted_errored min_width min_height dry_run d) (image_files d)
    /\ 1 <= error_count c
    /\ In (Print (FilesWithErrors (error_count c))) (effects r)
    /\ opened (effects r) = image_files d
    /\ (exists d' : directory, final r = Folder d' /\ d' !! name = d !! name)
    /\ (forall e, Image_open d name = Raises e ->
          In (Print (WarnCouldNotRead folder_path name e)) (effects r)
          /\ ~ In (Unlink name) (effects r))
    /\ (forall size e, Image_open d name = Returns size ->
          snd (unlink d name) = Raises e ->
          dry_run = false
          /\ In (Unlink name) (effects r)
          /\ In (Print (ErrorDeleting name e)) (effects r)).
Proof.
  intros Hin Herr r.
  assert (Hne : image_files d <> []) by (intros E; rewrite E in Hin; contradiction).
  destruct (run_completed folder_path min_width min_height dry_run d Hne)
    as (d' & Hrun & Hl).
  destruct (final_counters min_width min_height dry_run d (image_files d))
    as (_ & He & _ & _).
  pose proof (count_pos _ _ _ Hin Herr) as Hpos.
  eexists. split; [subst r; rewrite Hrun; reflexivity|].
  split; [exact He|]. split; [lia|]. split; [|split; [|split; [|split]]].
  - subst r. rewrite Hrun. cbn [effects].
    apply in_or_app. right. apply in_or_app. right. apply in_or_app. right.
    unfold summary. apply in_or_app. right. apply in_or_app. right.
    apply in_or_app. right.
    replace (0 <? error_count _) with true by (symmetry; apply Z.ltb_lt; lia).
    now left.
  - apply run_opened_all.
  - apply run_keeps. intros _ -> Hu.
    unfold counted_errored, read_fails, reads_undersized in *.
    destruct (Image_open d name); [|discriminate]. cbn in Herr.
    destruct (undersized min_width min_height a); [exact Herr | discriminate].
  - intros e Hread. subst r.
    rewrite !(fun ev pf => run_effects_about folder_path min_width min_height
                             dry_run d ev name pf) by reflexivity.
    assert (Hv : verdict_of min_width min_height dry_run d name = Unreadable e).
    { unfold verdict_of, Image_open in *.
      destruct (d !! name) as [en|]; [|congruence]. now rewrite Hread. }
    rewrite Hv. cbn. split; [tauto|]. intros [_ [H|[H|[]]]]; discriminate.
  - intros [w h] e Hread Hunl. subst r.
    rewrite !(fun ev pf => run_effects_about folder_path min_width min_height
                             dry_run d ev name pf) by reflexivity.
    rewrite (verdict_of_read _ _ _ _ _ _ _ Hread), Hunl.
    unfold counted_errored, read_fails, reads_undersized in Herr.
    rewrite Hread in Herr. cbn [orb] in Herr.
    destruct dry_run; [discriminate|]. cbn [negb andb] in Herr.
    destruct (undersized min_width min_height (w, h)); [|discriminate].
    cbn. tauto.
Qed.

(** ** Thresholds that no image is below *)

(** C10. The thresholds are used as given.  With [min_width <= 1] and
    [min_height <= 1], when the dimensions read from the candidates are
    positive, no candidate is undersized: [unlink] is never called, the folder
    is as it was, every candidate that is read is kept, and nothing is
    reported as deleted; [main] hands the thresholds of the command line to
    the scan unchanged. *)
Theorem small_thresholds_keep_everything
    (d : directory) (folder_path : string) (min_width min_height : Z)
    (dry_run : bool) :
  min_width <= 1 ->
  min_height <= 1 ->
  (forall name w h, In name (image_files d) ->
                    Image_open d name = Returns (w, h) -> 0 < w /\ 0 < h) ->
  let r := delete_small_images (Folder d) folder_path min_width min_height dry_run in
  final r = Folder d
  /\ unlinked (effects r) = []
  /\ (forall name w h, In name (image_files d) ->
                       Image_open d name = Returns (w, h) ->
                       In (Print (Kept name w h)) (effects r))
  /\ (exists c : counters,
        counters_of (returned r) = Some c
        /\ deleted_count c = 0
        /\ reported_deleted dry_run (Z.of_nat (length (image_files d))) c = 0
        /\ kept_count c
           = count (fun name => negb (read_fails d name)) (image_files d))
  /\ (forall typed,
        let m := main (Args folder_path min_width min_height dry_run) typed (Folder d) in
        main_final m = Folder d
        /\ (dry_run = true \/ confirmed typed = true ->
            main_returned m = Scanned (returned r))).
Proof.
  intros Hw Hh Hpos r.
  assert (Hnot : forall name, In name (image_files d) ->
                   reads_undersized min_width min_height d name = false).
  { intros name Hin. unfold reads_undersized.
    destruct (Image_open d name) as [[w h]|] eqn:E; [|reflexivity].
    destruct (Hpos name w h Hin E). unfold undersized. cbn.
    apply orb_false_iff. split; apply Z.ltb_ge; lia. }
  assert (Hfinal : final r = Folder d).
  { apply run_final_same. intros name Hin _ Hu. rewrite Hnot in Hu by assumption.
    discriminate. }
  split; [exact Hfinal|]. split; [|split; [|split]].
  - apply nil_of_no_member. intros name Hin. subst r.
    apply run_unlinked in Hin as (Hin & _ & Hu). rewrite Hnot in Hu by assumption.
    discriminate.
  - intros name w h Hin Hread. subst r.
    rewrite (run_effects_about folder_path min_width min_height dry_run d
               (Print (Kept name w h)) name eq_refl).
    split; [exact Hin|].
    rewrite (verdict_of_read _ _ _ _ _ _ _ Hread).
    pose proof (Hnot name Hin) as Hu. unfold reads_undersized in Hu.
    rewrite Hread in Hu. rewrite Hu. cbn. tauto.
  - exists (tally min_width min_height dry_run d (image_files d) zero_counters).
    split; [apply run_counters|].
    destruct (final_counters min_width min_height dry_run d (image_files d))
      as (Hk & _ & Hd & Hr).
    assert (Hz : count (counted_deleted min_width min_height dry_run d) (image_files d) = 0).
    { apply count_zero. intros x Hx. unfold counted_deleted. now rewrite Hnot. }
    split; [|split].
    + rewrite Hd. now destruct dry_run.
    + now rewrite Hr.
    + rewrite Hk. apply count_ext. intros x Hx.
      pose proof (Hnot x Hx) as Hu.
      unfold counted_kept, reads_large_enough, reads_undersized, read_fails in *.
      destruct (Image_open d x); [now rewrite Hu | reflexivity].
  - intros typed m. subst m r. unfold main. cbn [arg_dry_run folder width height].
    destruct dry_run; cbn [main_final main_returned].
    + split; [exact Hfinal | reflexivity].
    + destruct (confirmed typed); cbn [main_final main_returned].
      * split; [exact Hfinal | reflexivity].
      * split; [reflexivity|]. intros [H|H]; discriminate.
Qed.

(** ** The confirmation prompt *)

(** C6, as worded, fails: " yes", with a leading space, is not "yes" or "y"
    up to case, and the scan proceeds. *)
Lemma proceeds_iff_yes_up_to_case_fails :
  ~ proceeds_iff_yes_up_to_case (Args "photos" 400 400 false) " yes" (Folder scenario_a).
Proof.
  unfold proceeds_iff_yes_up_to_case. intros [H _].
  assert (Hp : main_returned (main (Args "photos" 400 400 false) " yes"
                                (Folder scenario_a)) <> OperationCancelled).
  { unfold main. cbn. discriminate. }
  assert (Hl : PyStr.lower " yes" = " yes") by reflexivity.
  rewrite Hl in H. destruct (H Hp) as [E|E]; discriminate.
Qed.

(** C6, amended.  Without [--dry-run] the program first prints its warning
    and reads the operator's answer.  The scan proceeds exactly when the
    answer, lower-cased and stripped of leading and trailing whitespace, is
    "yes" or "y": then [main] is the prompt followed by the scan.  For every
    other answer, the empty one included, the run is cancelled: nothing is
    listed, opened or unlinked, the target is as it was, and there are no
    counters. *)
Theorem confirmation_gates_scan (a : args) (typed : string) (t : target) :
  arg_dry_run a = false ->
  let m := main a typed t in
  let scan := delete_small_images t (folder a) (width a) (height a) false in
  let prompt := [Print (WarnPermanent (width a) (height a));
                 Print (FromFolder (folder a)); Input typed] in
  (exists rest, main_effects m = prompt ++ rest)
  /\ ((PyStr.strip (PyStr.lower typed) = "yes" \/ PyStr.strip (PyStr.lower typed) = "y")
      <-> main_returned m <> OperationCancelled)
  /\ ((PyStr.strip (PyStr.lower typed) = "yes" \/ PyStr.strip (PyStr.lower typed) = "y") ->
      main_returned m = Scanned (returned scan)
      /\ main_final m = final scan
      /\ main_effects m = prompt ++ effects scan)
  /\ (~ (PyStr.strip (PyStr.lower typed) = "yes" \/ PyStr.strip (PyStr.lower typed) = "y") ->
      main_returned m = OperationCancelled
      /\ main_final m = t
      /\ main_effects m = prompt ++ [Print Cancelled]
      /\ forall ev, In ev (main_effects m) -> file_access ev = false)
  /\ confirmed "" = false.
Proof.
  intros Hdry m scan prompt. subst m scan prompt.
  assert (Hc : confirmed typed = true
               <-> (PyStr.strip (PyStr.lower typed) = "yes"
                    \/ PyStr.strip (PyStr.lower typed) = "y")).
  { unfold confirmed, PyStr.mem. cbn [existsb]. rewrite !orb_true_iff, !String.eqb_eq.
    intuition discriminate. }
  unfold main. rewrite Hdry.
  destruct (confirmed typed) eqn:E; cbn [main_effects main_returned main_final].
  - split; [eauto|]. split; [|split; [|split]].
    + split; [discriminate|]. intros _. now apply Hc.
    + auto.
    + intros Hn. destruct Hn. now apply Hc.
    + reflexivity.
  - assert (Hn : ~ (PyStr.strip (PyStr.lower typed) = "yes"
                    \/ PyStr.strip (PyStr.lower typed) = "y")).
    { intros H. apply Hc in H. discriminate. }
    split; [eauto|]. split; [|split; [|split]].
    + split; [contradiction | congruence].
    + contradiction.
    + intros _. repeat split.
      intros ev H. repeat (destruct H as [<-|H]; [reflexivity|]). contradiction.
    + reflexivity.
Qed.

Lemma confirmation_gates_scan_witness :
  arg_dry_run (Args "photos" 400 400 false) = false
  /\ main_returned (main (Args "photos" 400 400 false) "Y" (Folder scenario_a))
     <> OperationCancelled.
Proof.
  split; [reflexivity|].
  pose proof (confirmation_gates_scan (Args "photos" 400 400 false) "Y"
                (Folder scenario_a) eq_refl) as H.
  cbv zeta in H. destruct H as (_ & H & _). apply H. right. reflexivity.
Defined.

(** Answers at the prompt. *)
Example confirmed_examples :
  confirmed "yes" = true /\ confirmed "Y" = true /\ confirmed "YeS" = true
  /\ confirmed "  y " = true /\ confirmed "" = false /\ confirmed "no" = false
  /\ confirmed "yess" = false /\ confirmed "ye s" = false.
Proof. repeat split. Qed.

(** Whitespace outside ASCII is stripped from the answer as well: the
    no-break space and the ideographic space are, the zero-width space
    (U+200B), which is not whitespace, is not. *)
Example confirmed_unicode_whitespace :
  confirmed (nbsp ++ "yes") = true
  /\ confirmed ("Y" ++ PyStr.of_bytes [227; 128; 128]%N) = true
  /\ confirmed (PyStr.of_bytes [226; 128; 139]%N ++ "yes") = false
  /\ main_returned (main (Args "photos" 400 400 false) (nbsp ++ "yes")
                      (Folder scenario_a))
     <> OperationCancelled.
Proof. repeat split. unfold main. cbn. discriminate. Qed.

(** ** Running twice *)

Lemma tests_same_entry min_width min_height (d1 d : directory) (name : string) :
  d1 !! name = d !! name ->
  reads_undersized min_width min_height d1 name
  = reads_undersized min_width min_height d name
  /\ unlink_fails d1 name = unlink_fails d name
  /\ read_fails d1 name = read_fails d name.
Proof.
  intros H. unfold reads_undersized, unlink_fails, read_fails, Image_open, unlink.
  rewrite H. destruct (d !! name) as [e|]; [|auto].
  destruct (unlink_error e); auto.
Qed.

Lemma deleted_in_notices folder_path (name : string) (w h : Z) (v : verdict) :
  In (Print (Deleted name w h)) (notices folder_path name v) -> is_removed v = true.
Proof.
  destruct v; cbn; intros H; auto;
    repeat (destruct H as [H|H]; try discriminate); contradiction.
Qed.

Section Survivors.

Variables min_width min_height : Z.
Variables d d1 : directory.
Hypothesis left : left_by_run min_width min_height false d d1.

(** The candidates left after a run are the candidates it did not
    remove, with their entries as they were. *)
Lemma survivors (name : string) :
  In name (image_files d1)
  <-> In name (image_files d)
      /\ counted_deleted min_width min_height false d name = false.
Proof.
  pose proof (left name) as Hl.
  pose proof (is_removed_verdict min_width min_height false d name) as Hr.
  cbn [negb andb] in Hr. rewrite Hr in Hl. clear Hr.
  rewrite !in_image_files. split.
  - intros (e & He & Hf & Hi). rewrite He in Hl.
    destruct (in_dec string_dec name (image_files d)) as [Hin|Hnin]; cbn [andb] in Hl.
    + destruct (counted_deleted min_width min_height false d name);
        [discriminate|]. eauto.
    + exfalso. apply Hnin. apply in_image_files. eauto.
  - intros ((e & He & Hf & Hi) & Hc). rewrite Hc, andb_false_r in Hl.
    exists e. rewrite Hl. auto.
Qed.

Lemma survivor_entry (name : string) :
  In name (image_files d1) -> d1 !! name = d !! name.
Proof.
  intros Hin. apply survivors in Hin as [_ Hc].
  rewrite (left name), is_removed_verdict, Hc. cbn [negb andb].
  now rewrite andb_false_r.
Qed.

Lemma survivor_not_deletable (name : string) :
  In name (image_files d1) ->
  counted_deleted min_width min_height false d1 name = false.
Proof.
  intros Hin. pose proof (survivor_entry name Hin) as He.
  destruct (tests_same_entry min_width min_height d1 d name He) as (Hu & Hf & _).
  apply survivors in Hin as [_ Hc].
  unfold counted_deleted in *. now rewrite Hu, Hf.
Qed.

End Survivors.

(** C8, as worded, fails: a small image that cannot be unlinked is still
    there after the first run, and the second run finds it undersized again. *)
Lemma second_run_finds_none_fails :
  ~ second_run_finds_none "photos" 400 400 locked_folder.
Proof.
  assert (H1 : final (delete_small_images (Folder locked_folder) "photos" 400 400 false)
               = Folder locked_folder) by by_evaluation.
  assert (H2 : unlinked (effects (delete_small_images (Folder locked_folder)
                                    "photos" 400 400 false)) = ["l.gif"])
    by by_evaluation.
  unfold second_run_finds_none. cbv zeta. rewrite H1, H2. intros [H _]. discriminate.
Qed.

(** C8, amended.  After a run that is not a dry run, a second such run on the
    folder it left, with the same thresholds, deletes nothing: its deleted
    count is 0, it prints no deletion, and it leaves the folder as it found
    it.  The undersized candidates it finds are exactly the undersized
    candidates of the first run whose deletion failed; when no deletion failed
    in the first run, it finds none and calls [unlink] on nothing. *)
Theorem second_run_deletes_nothing
    (d : directory) (folder_path : string) (min_width min_height : Z) :
  exists d1 : directory,
    final (delete_small_images (Folder d) folder_path min_width min_height false)
    = Folder d1
    /\ final (delete_small_images (Folder d1) folder_path min_width min_height false)
       = Folder d1
    /\ (exists c : counters,
          counters_of (returned (delete_small_images (Folder d1) folder_path
                                   min_width min_height false)) = Some c
          /\ deleted_count c = 0)
    /\ (forall name w h,
          ~ In (Print (Deleted name w h))
               (effects (delete_small_images (Folder d1) folder_path
                           min_width min_height false)))
    /\ (forall name,
          In name (unlinked (effects (delete_small_images (Folder d1) folder_path
                                        min_width min_height false)))
          <-> In name (image_files d)
              /\ reads_undersized min_width min_height d name = true
              /\ unlink_fails d name = true)
    /\ ((forall name, In name (image_files d) ->
                      reads_undersized min_width min_height d name = true ->
                      unlink_fails d name = false) ->
        unlinked (effects (delete_small_images (Folder d1) folder_path
                             min_width min_height false)) = []
        /\ forall name, In name (image_files d1) ->
                        reads_undersized min_width min_height d1 name = false).
Proof.
  destruct (run_final folder_path min_width min_height false d) as (d1 & Hf & Hl).
  exists d1. split; [exact Hf|].
  pose proof (survivors min_width min_height d d1 Hl) as Hsurv.
  pose proof (survivor_entry min_width min_height d d1 Hl) as Hent.
  pose proof (survivor_not_deletable min_width min_height d d1 Hl) as Hnd.
  assert (Hunl : forall name,
    In name (unlinked (effects (delete_small_images (Folder d1) folder_path
                                  min_width min_height false)))
    <-> In name (image_files d)
        /\ reads_undersized min_width min_height d name = true
        /\ unlink_fails d name = true).
  { intros name. rewrite run_unlinked, Hsurv. unfold counted_deleted.
    cbn [orb]. split.
    - intros ((Hin & Hc) & _ & Hu).
      assert (Hin1 : In name (image_files d1)) by (apply Hsurv; auto).
      destruct (tests_same_entry min_width min_height d1 d name (Hent name Hin1))
        as (Hu' & _ & _).
      rewrite Hu' in Hu. rewrite Hu in Hc. cbn [andb] in Hc.
      destruct (unlink_fails d name); [auto | discriminate].
    - intros (Hin & Hu & Hfail).
      assert (Hc : reads_undersized min_width min_height d name
                   && negb (unlink_fails d name) = false)
        by now rewrite Hu, Hfail.
      assert (Hin1 : In name (image_files d1)) by (apply Hsurv; auto).
      destruct (tests_same_entry min_width min_height d1 d name (Hent name Hin1))
        as (Hu' & _ & _).
      rewrite Hu'. auto. }
  split; [|split; [|split; [|split]]].
  - apply run_final_same. intros name Hin _ Hu.
    pose proof (Hnd name Hin) as Hc. unfold counted_deleted in Hc.
    rewrite Hu in Hc. cbn in Hc. now destruct (unlink_fails d1 name).
  - eexists. split; [apply run_counters|].
    destruct (final_counters min_width min_height false d1 (image_files d1))
      as (_ & _ & Hd & _).
    rewrite Hd. now apply count_zero.
  - intros name w h Hin.
    apply (run_effects_about folder_path min_width min_height false d1
             (Print (Deleted name w h)) name eq_refl) in Hin as [Hin Hev].
    apply deleted_in_notices in Hev. rewrite is_removed_verdict in Hev.
    rewrite (Hnd name Hin) in Hev. discriminate.
  - exact Hunl.
  - intros Hall. split.
    + apply nil_of_no_member. intros name Hin. apply Hunl in Hin as (Hin & Hu & Hfail).
      rewrite (Hall name Hin Hu) in Hfail. discriminate.
    + intros name Hin1.
      destruct (tests_same_entry min_width min_height d1 d name (Hent name Hin1))
        as (Hu' & _ & _).
      rewrite Hu'. apply Hsurv in Hin1 as [Hin Hc].
      destruct (reads_undersized min_width min_height d name) eqn:Hu; [|reflexivity].
      unfold counted_deleted in Hc. rewrite Hu, (Hall name Hin Hu) in Hc. discriminate.
Qed.

(** ** The suffix of a file name *)

Lemma rfind_at_head (c : ascii) (t : string) :
  PyStr.rfind c t = -1 -> PyStr.rfind c (String c t) = 0.
Proof. cbn. intros ->. cbn. now rewrite Ascii.eqb_refl. Qed.

Lemma rfind_append (c : ascii) (s t : string) :
  0 <= PyStr.rfind c t ->
  PyStr.rfind c (s ++ t)%string = PyStr.len s + PyStr.rfind c t.
Proof.
  intros Ht. unfold PyStr.len. induction s as [|a s IH].
  - reflexivity.
  - simpl. rewrite IH.
    replace (0 <=? Z.of_nat (String.length s) + PyStr.rfind c t) with true
      by (symmetry; apply Z.leb_le; lia).
    lia.
Qed.

Lemma drop_append (s t : string) : PyStr.drop (String.length s) (s ++ t)%string = t.
Proof. induction s as [|a s IH]; [now destruct t | exact IH]. Qed.

Lemma length_append (s t : string) :
  String.length (s ++ t)%string = (String.length s + String.length t)%nat.
Proof. induction s as [|a s IH]; simpl; [reflexivity | now rewrite IH]. Qed.

(** A name [stem.ext] with a non-empty stem and a non-empty, dot-free
    extension has the suffix [.ext]. *)
Lemma suffix_stem_ext (stem ext : string) :
  stem <> "" -> ext <> "" -> PyStr.rfind "."%char ext = -1 ->
  suffix (stem ++ "." ++ ext)%string = ("." ++ ext)%string.
Proof.
  intros Hs He Hnd. unfold suffix.
  assert (Hr : PyStr.rfind "."%char (stem ++ "." ++ ext)%string = PyStr.len stem).
  { change ("." ++ ext)%string with (String "." ext).
    rewrite rfind_append; rewrite rfind_at_head by exact Hnd; lia. }
  rewrite Hr. unfold PyStr.len, PyStr.slice_from.
  change ("." ++ ext)%string with (String "." ext).
  rewrite length_append. simpl String.length.
  assert (0 < String.length stem)%nat by (destruct stem; [congruence | cbn; lia]).
  assert (0 < String.length ext)%nat by (destruct ext; [congruence | cbn; lia]).
  replace ((0 <? Z.of_nat (String.length stem))
           && (Z.of_nat (String.length stem)
               <? Z.of_nat (String.length stem + S (String.length ext)) - 1))
    with true.
  - rewrite Nat2Z.id. apply drop_append.
  - symmetry. apply andb_true_iff. split; apply Z.ltb_lt; lia.
Qed.

Lemma lower_append (s t : string) :
  PyStr.lower (s ++ t)%string = (PyStr.lower s ++ PyStr.lower t)%string.
Proof. induction s as [|a s IH]; simpl; [reflexivity | now rewrite IH]. Qed.

(** Such a name is an image file exactly when its extension, lower-cased,
    is a recognized one. *)
Lemma is_image_file_stem_ext (stem ext : string) :
  stem <> "" -> ext <> "" -> PyStr.rfind "."%char ext = -1 ->
  is_image_file (stem ++ "." ++ ext)%string = true <-> In (PyStr.lower ext) recognized.
Proof.
  intros Hs He Hnd. rewrite is_image_file_iff. unfold has_recognized_suffix.
  rewrite suffix_stem_ext by assumption.
  change (PyStr.lower ("." ++ ext)%string) with ("." ++ PyStr.lower ext)%string.
  split.
  - intros (x & Hin & Heq). injection Heq as Heq.
    change (PyStr.lower ext = x) in Heq. now rewrite Heq.
  - intros Hin. eauto.
Qed.

(** ** The scenarios of the specification *)


(** Scenario A: [a.jpg] (800x600) is kept and [b.png] (200x200) is deleted;
    the summary reports one deletion, one file kept and no error. *)
Example scenario_a_run :
  let r := delete_small_images (Folder scenario_a) "photos" 400 400 false in
  returned r = Completed 2 (Counters 1 1 0)
  /\ final r = Folder (<["a.jpg" := picture 800 600]> ∅)
  /\ In (Print (Kept "a.jpg" 800 600)) (effects r)
  /\ In (Print (Deleted "b.png" 200 200)) (effects r)
  /\ In (Print (FilesDeleted 1)) (effects r)
  /\ In (Print (FilesKept 1)) (effects r)
  /\ ~ In (Print (FilesWithErrors 0)) (effects r).
Proof.
  cbv zeta. repeat apply conj; try (by_evaluation; fail).
  assert (He : effects (delete_small_images (Folder scenario_a) "photos" 400 400 false)
               = [Print (Scanning "photos"); Print (MinimumSize 400 400);
                  Print Rule; Iterdir; Print (Found 2); Print Blank;
                  ImageOpen "a.jpg"; Print (Kept "a.jpg" 800 600);
                  ImageOpen "b.png"; Unlink "b.png"; Print (Deleted "b.png" 200 200);
                  Print Blank; Print Rule; Print Summary; Print (FilesDeleted 1);
                  Print (FilesKept 1)]) by by_evaluation.
  rewrite He. cbn. intuition discriminate.
Qed.

(** Scenario B: the same folder under dry-run; nothing is removed. *)
Example scenario_b_run :
  let r := delete_small_images (Folder scenario_a) "photos" 400 400 true in
  returned r = Completed 2 (Counters 0 1 0)
  /\ final r = Folder scenario_a
  /\ In (Print (WouldDelete "b.png" 200 200)) (effects r)
  /\ In (Print (WouldBeDeleted 1)) (effects r)
  /\ In (Print (FilesKept 1)) (effects r).
Proof. cbv zeta. repeat apply conj; by_evaluation. Qed.

(** Scenario C: a corrupt [c.webp] is counted as an error and not unlinked. *)
Example scenario_c_run :
  let r := delete_small_images (Folder scenario_c) "photos" 400 400 false in
  returned r = Completed 1 (Counters 0 0 1)
  /\ final r = Folder scenario_c
  /\ unlinked (effects r) = []
  /\ opened (effects r) = ["c.webp"].
Proof. cbv zeta. repeat apply conj; by_evaluation. Qed.

(** Scenario D: the target path does not exist. *)
Example scenario_d_run :
  delete_small_images Missing "photos" 400 400 false
  = Result Missing [Print (ErrNotExist "photos")] FolderDoesNotExist.
Proof. reflexivity. Qed.

(** Pathlib's suffix on a few names. *)
Example suffix_examples :
  suffix "a.jpg" = ".jpg" /\ suffix "archive.tar.GZ" = ".GZ"
  /\ suffix ".jpg" = "" /\ suffix "a." = "" /\ suffix "README" = "".
Proof. repeat split. Qed.

Example is_image_file_examples :
  is_image_file "IMG_0001.JPG" = true /\ is_image_file "scan.Tiff" = true
  /\ is_image_file "notes.txt" = false /\ is_image_file "layers.psd" = false
  /\ is_image_file ".png" = false /\ is_image_file "a.png.bak" = false.
Proof. repeat split. Qed.

(** ** Instances *)

Lemma counters_partition_candidates_witness :
  image_files scenario_a <> []
  /\ exists c : counters,
       returned (delete_small_images (Folder scenario_a) "photos" 400 400 false)
       = Completed (Z.of_nat (length (image_files scenario_a))) c
       /\ kept_count c
          + reported_deleted false (Z.of_nat (length (image_files scenario_a))) c
          + error_count c
          = Z.of_nat (length (image_files scenario_a)).
Proof.
  split; [vm_compute; discriminate|].
  destruct (counters_partition_candidates scenario_a "photos" 400 400 false)
    as (c & Hr & Hs & _); [vm_compute; discriminate|].
  exists c. split; [exact Hr | exact Hs].
Defined.

Lemma would_delete_derived_equals_spec_witness :
  image_files scenario_a <> []
  /\ exists c : counters,
       returned (delete_small_images (Folder scenario_a) "photos" 400 400 true)
       = Completed (Z.of_nat (length (image_files scenario_a))) c
       /\ Z.of_nat (length (image_files scenario_a)) - kept_count c - error_count c
          = would_delete_spec 400 400 scenario_a.
Proof.
  split; [vm_compute; discriminate|].
  destruct (would_delete_derived_equals_spec scenario_a "photos" 400 400)
    as (c & Hr & _ & _ & Hs); [vm_compute; discriminate|].
  exists c. split; [exact Hr | exact Hs].
Defined.

Lemma undersized_iff_strictly_below_witness :
  In "b.png" (image_files scenario_a)
  /\ Image_open scenario_a "b.png" = Returns (200, 200)
  /\ ((200 < 400 \/ 200 < 400)
      <-> In (Unlink "b.png")
             (effects (delete_small_images (Folder scenario_a) "photos" 400 400 false))).
Proof.
  assert (Hin : In "b.png" (image_files scenario_a)) by by_evaluation.
  assert (Hread : Image_open scenario_a "b.png" = Returns (200, 200)) by by_evaluation.
  split; [exact Hin|]. split; [exact Hread|].
  pose proof (undersized_iff_strictly_below scenario_a "photos" 400 400 false
                "b.png" 200 200 Hin Hread) as H.
  cbv zeta in H. destruct H as (_ & _ & H & _). exact (H eq_refl).
Defined.

Lemma candidate_iff_recognized_suffix_witness :
  scenario_c !! "notes.txt" = Some (picture 10 10)
  /\ is_file (picture 10 10) = true
  /\ (In "notes.txt" (image_files scenario_c) <-> has_recognized_suffix "notes.txt").
Proof.
  assert (He : scenario_c !! "notes.txt" = Some (picture 10 10)) by by_evaluation.
  split; [exact He|]. split; [reflexivity|].
  pose proof (candidate_iff_recognized_suffix scenario_c "notes.txt" (picture 10 10)
                "photos" 400 400 false He eq_refl) as H.
  cbv zeta in H. destruct H as [H _]. exact H.
Defined.

Lemma per_file_errors_not_fatal_witness :
  In "c.webp" (image_files scenario_c)
  /\ counted_errored 400 400 false scenario_c "c.webp" = true
  /\ exists c : counters,
       returned (delete_small_images (Folder scenario_c) "photos" 400 400 false)
       = Completed (Z.of_nat (length (image_files scenario_c))) c
       /\ 1 <= error_count c.
Proof.
  assert (Hin : In "c.webp" (image_files scenario_c)) by by_evaluation.
  assert (Herr : counted_errored 400 400 false scenario_c "c.webp" = true)
    by by_evaluation.
  split; [exact Hin|]. split; [exact Herr|].
  destruct (per_file_errors_not_fatal scenario_c "photos" 400 400 false "c.webp"
              Hin Herr) as (c & Hr & _ & Hpos & _).
  exists c. split; [exact Hr | exact Hpos].
Defined.

Lemma small_thresholds_keep_everything_witness :
  0 <= 1 /\ -5 <= 1
  /\ (forall name w h, In name (image_files scenario_a) ->
                       Image_open scenario_a name = Returns (w, h) -> 0 < w /\ 0 < h)
  /\ final (delete_small_images (Folder scenario_a) "photos" 0 (-5) false)
     = Folder scenario_a.
Proof.
  assert (Hpos : forall name w h, In name (image_files scenario_a) ->
             Image_open scenario_a name = Returns (w, h) -> 0 < w /\ 0 < h).
  { assert (Hfiles : image_files scenario_a = ["a.jpg"; "b.png"]) by by_evaluation.
    assert (Ha : Image_open scenario_a "a.jpg" = Returns (800, 600)) by by_evaluation.
    assert (Hb : Image_open scenario_a "b.png" = Returns (200, 200)) by by_evaluation.
    intros name w h Hin. rewrite Hfiles in Hin.
    destruct Hin as [<-|[<-|[]]]; [rewrite Ha | rewrite Hb];
      intros [= <- <-]; lia. }
  split; [lia|]. split; [lia|]. split; [exact Hpos|].
  assert (Hw : 0 <= 1) by lia. assert (Hh : -5 <= 1) by lia.
  pose proof (small_thresholds_keep_everything scenario_a "photos" 0 (-5) false
                Hw Hh Hpos) as H.
  cbv zeta in H. destruct H as [H _]. exact H.
Defined.

(** * Further properties of the program *)

(** ** What a run prints besides the per-file lines *)

Lemma chronicle_has_file folder_path min_width min_height dry_run
    (d : directory) (l : list string) (ev : event) :
  In ev (chronicle folder_path min_width min_height dry_run d l) ->
  event_file ev <> None.
Proof.
  unfold chronicle. rewrite in_flat_map. intros (x & _ & Hin).
  apply in_notices in Hin. congruence.
Qed.

(** The effects that are about no file: the banner, then either the
    "no image files" line, or the count of candidates and the summary. *)
Lemma run_effects_general folder_path min_width min_height dry_run
    (d : directory) (ev : event) :
  event_file ev = None ->
  In ev (effects (delete_small_images (Folder d) folder_path
                    min_width min_height dry_run))
  <-> In ev (banner folder_path min_width min_height dry_run)
      \/ (image_files d = [] /\ ev = Print NoImageFiles)
      \/ (image_files d <> []
          /\ (ev = Print (Found (Z.of_nat (length (image_files d))))
              \/ ev = Print Blank
              \/ In ev (summary dry_run (Z.of_nat (length (image_files d)))
                          (tally min_width min_height dry_run d
                             (image_files d) zero_counters)))).
Proof.
  intros Hf. destruct (nil_or_not (image_files d)) as [E|E].
  - rewrite run_no_images by assumption. cbn [effects]. rewrite in_app_iff.
    cbn [In]. intuition congruence.
  - destruct (run_completed folder_path min_width min_height dry_run d E)
      as (d' & -> & _).
    cbn [effects]. rewrite !in_app_iff. cbn [In]. split.
    + intros [H|[H|[H|H]]].
      * now left.
      * destruct H as [<-|[<-|[]]]; right; right; auto.
      * apply chronicle_has_file in H. contradiction.
      * right. right. auto.
    + intros [H|[[H _]|[_ [->|[->|H]]]]]; auto 8; contradiction.
Qed.

(** X1. The "no image files" line is printed exactly when the folder has no
    candidate, that is when no regular file in it has a recognized suffix;
    the run then opens nothing, prints no summary and leaves the folder as it
    is.  Otherwise the number of candidates and a summary are printed. *)
Theorem no_candidates_report
    (d : directory) (folder_path : string) (min_width min_height : Z)
    (dry_run : bool) :
  (In (Print NoImageFiles)
      (effects (delete_small_images (Folder d) folder_path
                  min_width min_height dry_run))
   <-> image_files d = [])
  /\ (image_files d = []
      <-> forall name e, d !! name = Some e -> is_file e = true ->
                         ~ has_recognized_suffix name)
  /\ (image_files d = [] ->
      returned (delete_small_images (Folder d) folder_path
                  min_width min_height dry_run) = NoImages
      /\ final (delete_small_images (Folder d) folder_path
                  min_width min_height dry_run) = Folder d
      /\ opened (effects (delete_small_images (Folder d) folder_path
                            min_width min_height dry_run)) = []
      /\ ~ In (Print Summary)
              (effects (delete_small_images (Folder d) folder_path
                          min_width min_height dry_run)))
  /\ (image_files d <> [] ->
      In (Print (Found (Z.of_nat (length (image_files d)))))
         (effects (delete_small_images (Folder d) folder_path
                     min_width min_height dry_run))
      /\ In (Print Summary)
            (effects (delete_small_images (Folder d) folder_path
                        min_width min_height dry_run))).
Proof.
  assert (Hbanner : forall ev, In ev (banner folder_path min_width min_height dry_run) ->
                      ev <> Print NoImageFiles /\ ev <> Print Summary).
  { unfold banner. intros ev H. destruct dry_run; cbn in H;
      repeat (destruct H as [<-|H]; [split; discriminate|]); contradiction. }
  assert (Hsum : forall n c, ~ In (Print NoImageFiles) (summary dry_run n c)).
  { intros n c H. unfold summary in H.
    destruct dry_run, (0 <? error_count c); cbn in H;
      repeat (destruct H as [H|H]; [discriminate|]); contradiction. }
  split; [|split; [|split]].
  - rewrite (run_effects_general folder_path min_width min_height dry_run d
               (Print NoImageFiles) eq_refl). split.
    + intros [H|[[H _]|[_ [H|[H|H]]]]]; try discriminate; auto.
      * apply Hbanner in H. now destruct H.
      * now apply Hsum in H.
    + intros E. right. left. auto.
  - split.
    + intros E name e He Hf Hs. apply is_image_file_iff in Hs.
      assert (Hin : In name (image_files d)) by (apply in_image_files; eauto).
      rewrite E in Hin. contradiction.
    + intros H. apply nil_of_no_member. intros name Hin.
      apply in_image_files in Hin as (e & He & Hf & Hi).
      apply (H name e He Hf). now apply is_image_file_iff.
  - intros E. rewrite run_opened_all, run_no_images by assumption.
    cbn [returned final effects]. repeat split; [exact E|].
    intros H. apply in_app_or in H as [H|[H|[]]]; [|discriminate].
    apply Hbanner in H. now destruct H.
  - intros E.
    rewrite (run_effects_general folder_path min_width min_height dry_run d
               (Print (Found (Z.of_nat (length (image_files d))))) eq_refl).
    rewrite (run_effects_general folder_path min_width min_height dry_run d
               (Print Summary) eq_refl).
    split.
    + right. right. auto.
    + right. right. split; [exact E|]. right. right.
      unfold summary. right. right. now left.
Qed.

Lemma in_banner folder_path min_width min_height dry_run (ev : event) :
  In ev (banner folder_path min_width min_height dry_run)
  <-> ev = Print (Scanning folder_path)
      \/ ev = Print (MinimumSize min_width min_height)
      \/ (dry_run = true /\ ev = Print DryRunMode)
      \/ ev = Print Rule
      \/ ev = Iterdir.
Proof.
  unfold banner. destruct dry_run; cbn; intuition (auto; try discriminate).
Qed.

Lemma in_summary dry_run n c (ev : event) :
  In ev (summary dry_run n c)
  <-> ev = Print Blank \/ ev = Print Rule \/ ev = Print Summary
      \/ ev = Print (if dry_run then WouldBeDeleted (reported_deleted dry_run n c)
                     else FilesDeleted (reported_deleted dry_run n c))
      \/ ev = Print (FilesKept (kept_count c))
      \/ (0 < error_count c /\ ev = Print (FilesWithErrors (error_count c))).
Proof.
  unfold summary. destruct (Z.ltb_spec 0 (error_count c)); cbn;
    intuition (auto; try lia).
Qed.

Lemma count_nil_lt {A : Type} (f : A -> bool) (l : list A) :
  0 < count f l -> l <> [].
Proof. intros H ->. unfold count in H. cbn in H. lia. Qed.

Lemma run_summary_line folder_path min_width min_height dry_run
    (d : directory) (ev : event) :
  match ev with
  | Print (FilesKept _) | Print (FilesDeleted _) | Print (WouldBeDeleted _)
  | Print (FilesWithErrors _) => True
  | _ => False
  end ->
  In ev (effects (delete_small_images (Folder d) folder_path
                    min_width min_height dry_run))
  <-> image_files d <> []
      /\ (ev = Print (if dry_run
                      then WouldBeDeleted
                             (count (counted_deleted min_width min_height dry_run d)
                                (image_files d))
                      else FilesDeleted
                             (count (counted_deleted min_width min_height dry_run d)
                                (image_files d)))
          \/ ev = Print (FilesKept (count (counted_kept min_width min_height d)
                                      (image_files d)))
          \/ (0 < count (counted_errored min_width min_height dry_run d)
                     (image_files d)
              /\ ev = Print (FilesWithErrors
                               (count (counted_errored min_width min_height dry_run d)
                                  (image_files d))))).
Proof.
  intros Hkind.
  assert (Hf : event_file ev = None) by (destruct ev as [[]| | | |]; easy).
  destruct (final_counters min_width min_height dry_run d (image_files d))
    as (Hk & He & _ & Hr).
  rewrite (run_effects_general folder_path min_width min_height dry_run d ev Hf).
  rewrite in_banner, in_summary, Hk, He, Hr.
  destruct ev as [[]| | | |]; try contradiction;
    (split;
     [ intros [H|[[_ H]|[E [H|[H|H]]]]]; try discriminate;
       [ destruct H as [H|[H|[[_ H]|[H|H]]]]; discriminate
       | split; [exact E|];
         destruct H as [H|[H|[H|H]]]; try discriminate; exact H ]
     | intros [E H]; right; right; split; [exact E|]; right; right; right; right;
       right; exact H ]).
Qed.

(** X2. The summary prints the number of kept candidates, the number of
    candidates deleted (or, under dry-run, that would be deleted), and the
    number of candidates in error; the last line is printed exactly when that
    number is positive, and no summary line is printed without candidates. *)
Theorem summary_reports_counts
    (d : directory) (folder_path : string) (min_width min_height : Z)
    (dry_run : bool) :
  (forall n,
      In (Print (FilesKept n))
         (effects (delete_small_images (Folder d) folder_path
                     min_width min_height dry_run))
      <-> image_files d <> []
          /\ n = count (counted_kept min_width min_height d) (image_files d))
  /\ (forall n,
      In (Print (FilesDeleted n))
         (effects (delete_small_images (Folder d) folder_path
                     min_width min_height dry_run))
      <-> image_files d <> [] /\ dry_run = false
          /\ n = count (counted_deleted min_width min_height dry_run d)
                   (image_files d))
  /\ (forall n,
      In (Print (WouldBeDeleted n))
         (effects (delete_small_images (Folder d) folder_path
                     min_width min_height dry_run))
      <-> image_files d <> [] /\ dry_run = true
          /\ n = count (counted_deleted min_width min_height dry_run d)
                   (image_files d))
  /\ (forall n,
      In (Print (FilesWithErrors n))
         (effects (delete_small_images (Folder d) folder_path
                     min_width min_height dry_run))
      <-> 0 < n
          /\ n = count (counted_errored min_width min_height dry_run d)
                   (image_files d)).
Proof.
  split; [|split; [|split]]; intros n.
  - rewrite (run_summary_line folder_path min_width min_height dry_run d
               (Print (FilesKept n)) I).
    destruct dry_run; intuition (try discriminate; try congruence).
  - rewrite (run_summary_line folder_path min_width min_height dry_run d
               (Print (FilesDeleted n)) I).
    destruct dry_run; intuition (try discriminate; try congruence).
  - rewrite (run_summary_line folder_path min_width min_height dry_run d
               (Print (WouldBeDeleted n)) I).
    destruct dry_run; intuition (try discriminate; try congruence).
  - rewrite (run_summary_line folder_path min_width min_height dry_run d
               (Print (FilesWithErrors n)) I).
    split.
    + intros [E [H|[H|[Hp H]]]]; try (destruct dry_run; discriminate).
      injection H as ->. auto.
    + intros [Hp ->]. split; [exact (count_nil_lt _ _ Hp)|]. auto.
Qed.

(** ** What the report says and what happened *)

Lemma removed_has_entry min_width min_height dry_run (d : directory) (name : string) :
  is_removed (verdict_of min_width min_height dry_run d name) = true ->
  exists e w h, d !! name = Some e /\ image e = Returns (w, h)
                /\ verdict_of min_width min_height dry_run d name = Removed w h.
Proof.
  unfold verdict_of. destruct (d !! name) as [e|]; [|discriminate].
  destruct (image e) as [[w h]|msg] eqn:Hi; [|discriminate].
  destruct ((w <? min_width) || (h <? min_height)); [|discriminate].
  destruct dry_run; [discriminate|].
  destruct (unlink_error e); [discriminate|].
  intros _. exists e, w, h. auto.
Qed.

(** X3. A run never adds or changes an entry of the folder, and the entries
    it removes are exactly the files it reports as deleted. *)
Theorem deleted_iff_gone
    (d : directory) (folder_path : string) (min_width min_height : Z)
    (dry_run : bool) :
  exists d' : directory,
    final (delete_small_images (Folder d) folder_path min_width min_height dry_run)
    = Folder d'
    /\ d' ⊆ d
    /\ forall name,
         (is_Some (d !! name) /\ d' !! name = None)
         <-> exists w h,
               In (Print (Deleted name w h))
                  (effects (delete_small_images (Folder d) folder_path
                              min_width min_height dry_run)).
Proof.
  destruct (run_final folder_path min_width min_height dry_run d) as (d' & Hf & Hl).
  exists d'. split; [exact Hf|]. split.
  - apply map_subseteq_spec. intros k x Hk. rewrite (Hl k) in Hk.
    destruct ((if in_dec string_dec k (image_files d) then true else false)
              && is_removed (verdict_of min_width min_height dry_run d k));
      [discriminate | exact Hk].
  - intros name. specialize (Hl name). split.
    + intros [[e He] Hnone]. rewrite Hnone, He in Hl.
      destruct (in_dec string_dec name (image_files d)) as [Hin|Hnin];
        cbn [andb] in Hl; [|discriminate].
      destruct (is_removed (verdict_of min_width min_height dry_run d name)) eqn:Hr;
        [|discriminate].
      apply removed_has_entry in Hr as (e' & w & h & _ & _ & Hv).
      exists w, h.
      apply (run_effects_about folder_path min_width min_height dry_run d
               (Print (Deleted name w h)) name eq_refl).
      split; [exact Hin|]. rewrite Hv. cbn. auto.
    + intros (w & h & Hin).
      apply (run_effects_about folder_path min_width min_height dry_run d
               (Print (Deleted name w h)) name eq_refl) in Hin as [Hin Hev].
      apply deleted_in_notices in Hev.
      destruct (removed_has_entry _ _ _ _ _ Hev) as (e & _ & _ & He & _).
      split; [eauto|]. rewrite Hl, Hev.
      destruct (in_dec string_dec name (image_files d)); [reflexivity | contradiction].
Qed.


(** ** The prompt under dry-run *)

Lemma no_input_in_scan (t : target) folder_path min_width min_height dry_run
    (typed : string) :
  ~ In (Input typed)
       (effects (delete_small_images t folder_path min_width min_height dry_run)).
Proof.
  destruct t as [| |d]; cbn; try (intros [H|[]]; discriminate).
  intros H.
  apply (run_effects_general folder_path min_width min_height dry_run d
           (Input typed) eq_refl) in H.
  rewrite in_banner, in_summary in H.
  intuition (try discriminate); destruct dry_run; discriminate.
Qed.

(** X5. With [--dry-run] the operator is not asked anything: [main] is the
    scan alone, nothing is read from the prompt, the target is left as it is,
    and what would have been typed makes no difference. *)
Theorem dry_run_skips_prompt (a : args) (typed : string) (t : target) :
  arg_dry_run a = true ->
  main_effects (main a typed t)
  = effects (delete_small_images t (folder a) (width a) (height a) true)
  /\ main_returned (main a typed t)
     = Scanned (returned (delete_small_images t (folder a) (width a) (height a) true))
  /\ main_final (main a typed t) = t
  /\ (forall answer, ~ In (Input answer) (main_effects (main a typed t)))
  /\ (forall other, main a other t = main a typed t).
Proof.
  intros Hdry. unfold main. rewrite Hdry. cbn [main_effects main_returned main_final].
  repeat split.
  - destruct t as [| |d]; try reflexivity.
    apply run_final_same. intros; discriminate.
  - intros answer. apply no_input_in_scan.
Qed.

Lemma dry_run_skips_prompt_witness :
  arg_dry_run (Args "photos" 400 400 true) = true
  /\ main_final (main (Args "photos" 400 400 true) "no" (Folder scenario_a))
     = Folder scenario_a.
Proof.
  split; [reflexivity|].
  pose proof (dry_run_skips_prompt (Args "photos" 400 400 true) "no"
                (Folder scenario_a) eq_refl) as H.
  destruct H as (_ & _ & H & _). exact H.
Defined.

(** ** Changing the thresholds *)

Lemma count_le {A : Type} (f g : A -> bool) (l : list A) :
  (forall x, In x l -> f x = true -> g x = true) -> count f l <= count g l.
Proof.
  unfold count. intros H. apply inj_le.
  induction l as [|a l IH]; [reflexivity|]. cbn [List.filter].
  assert (IH' : (length (List.filter f l) <= length (List.filter g l))%nat)
    by (apply IH; intros; apply H; auto; now right).
  destruct (f a) eqn:Ef.
  - rewrite (H a (or_introl eq_refl) Ef). cbn [length]. lia.
  - destruct (g a); cbn [length]; lia.
Qed.

Lemma undersized_mono (w1 h1 w2 h2 : Z) (size : Dimensions) :
  w1 <= w2 -> h1 <= h2 ->
  undersized w1 h1 size = true -> undersized w2 h2 size = true.
Proof.
  unfold undersized. rewrite !orb_true_iff, !Z.ltb_lt. lia.
Qed.

(** X6. Raising the thresholds never spares a file: a file on which [unlink]
    is called with the lower thresholds is one on which it is called with the
    higher ones, a file kept with the higher thresholds is kept with the lower
    ones, and the number of kept files does not grow. *)
Theorem thresholds_monotone
    (d : directory) (folder_path : string) (w1 h1 w2 h2 : Z) (dry_run : bool) :
  w1 <= w2 ->
  h1 <= h2 ->
  (forall name,
      In name (unlinked (effects (delete_small_images (Folder d) folder_path
                                    w1 h1 dry_run)))
      -> In name (unlinked (effects (delete_small_images (Folder d) folder_path
                                       w2 h2 dry_run))))
  /\ (forall name w h,
      In (Print (Kept name w h))
         (effects (delete_small_images (Folder d) folder_path w2 h2 dry_run))
      -> In (Print (Kept name w h))
            (effects (delete_small_images (Folder d) folder_path w1 h1 dry_run)))
  /\ exists c1 c2 : counters,
       counters_of (returned (delete_small_images (Folder d) folder_path
                                w1 h1 dry_run)) = Some c1
       /\ counters_of (returned (delete_small_images (Folder d) folder_path
                                   w2 h2 dry_run)) = Some c2
       /\ kept_count c2 <= kept_count c1.
Proof.
  intros Hw Hh. split; [|split].
  - intros name. rewrite !run_unlinked. intros (Hin & Hdry & Hu).
    split; [exact Hin|]. split; [exact Hdry|].
    unfold reads_undersized in *. destruct (Image_open d name); [|discriminate].
    now apply (undersized_mono w1 h1 w2 h2).
  - intros name w h.
    rewrite !(fun mw mh => run_effects_about folder_path mw mh dry_run d
                             (Print (Kept name w h)) name eq_refl).
    intros [Hin Hev]. split; [exact Hin|].
    unfold verdict_of in *. destruct (d !! name) as [e|]; [|exact Hev].
    destruct (image e) as [[w' h']|msg]; [|exact Hev].
    pose proof (undersized_mono w1 h1 w2 h2 (w', h') Hw Hh) as Hm.
    unfold undersized in Hm. cbn [fst snd] in Hm.
    destruct ((w' <? w2) || (h' <? h2)) eqn:E2.
    + exfalso. destruct dry_run; [|destruct (unlink_error e)]; cbn in Hev;
        intuition discriminate.
    + destruct ((w' <? w1) || (h' <? h1)); [|exact Hev].
      specialize (Hm eq_refl). discriminate.
  - exists (tally w1 h1 dry_run d (image_files d) zero_counters),
      (tally w2 h2 dry_run d (image_files d) zero_counters).
    split; [apply run_counters|]. split; [apply run_counters|].
    destruct (final_counters w1 h1 dry_run d (image_files d)) as (-> & _).
    destruct (final_counters w2 h2 dry_run d (image_files d)) as (-> & _).
    apply count_le. intros x _.
    unfold counted_kept, reads_large_enough.
    destruct (Image_open d x) as [size|]; [|discriminate].
    rewrite !negb_true_iff. intros H2.
    destruct (undersized w1 h1 size) eqn:E1; [|reflexivity].
    rewrite (undersized_mono w1 h1 w2 h2 size Hw Hh E1) in H2. discriminate.
Qed.

Lemma thresholds_monotone_witness :
  400 <= 1000 /\ 400 <= 1000
  /\ forall name,
       In name (unlinked (effects (delete_small_images (Folder scenario_a) "photos"
                                     400 400 false)))
       -> In name (unlinked (effects (delete_small_images (Folder scenario_a) "photos"
                                        1000 1000 false))).
Proof.
  assert (Hw : 400 <= 1000) by lia.
  split; [exact Hw|]. split; [exact Hw|].
  pose proof (thresholds_monotone scenario_a "photos" 400 400 1000 1000 false Hw Hw)
    as H.
  destruct H as [H _]. exact H.
Defined.

(** ** Entries that are not regular files *)

(** X7. An entry of the folder that is not a regular file (a sub-directory,
    say) is never a candidate, whatever its name: it is not opened, [unlink] is
    not called on it, no line is printed about it, it is in the folder after
    the run, and the run returns what it returns on the folder without it. *)
Theorem non_files_untouched
    (d : directory) (name : string) (e : entry)
    (folder_path : string) (min_width min_height : Z) (dry_run : bool) :
  d !! name = Some e ->
  is_file e = false ->
  ~ In name (image_files d)
  /\ ~ In name (opened (effects (delete_small_images (Folder d) folder_path
                                   min_width min_height dry_run)))
  /\ ~ In name (unlinked (effects (delete_small_images (Folder d) folder_path
                                     min_width min_height dry_run)))
  /\ (forall ev,
        In ev (effects (delete_small_images (Folder d) folder_path
                          min_width min_height dry_run)) ->
        event_file ev <> Some name)
  /\ (exists d' : directory,
        final (delete_small_images (Folder d) folder_path min_width min_height dry_run)
        = Folder d'
        /\ d' !! name = Some e)
  /\ returned (delete_small_images (Folder (delete name d)) folder_path
                 min_width min_height dry_run)
     = returned (delete_small_images (Folder d) folder_path
                   min_width min_height dry_run).
Proof.
  intros He Hf.
  assert (Hnc : ~ In name (image_files d)).
  { rewrite in_image_files. intros (e' & He' & Hf' & _). congruence. }
  split; [exact Hnc|]. split; [|split; [|split; [|split]]].
  - rewrite run_opened. exact Hnc.
  - rewrite run_unlinked. tauto.
  - intros ev Hin Hev.
    apply (run_effects_about folder_path min_width min_height dry_run d ev name Hev)
      in Hin as [Hin _]. contradiction.
  - destruct (run_keeps folder_path min_width min_height dry_run d name)
      as (d' & Hd' & Hk); [intros; contradiction|].
    exists d'. split; [exact Hd'|]. now rewrite Hk.
  - now apply returned_without.
Qed.

Lemma non_files_untouched_witness :
  album !! "holiday.jpg" = Some (Entry SubDirectory (Raises "Is a directory") None)
  /\ is_file (Entry SubDirectory (Raises "Is a directory") None) = false
  /\ ~ In "holiday.jpg" (image_files album).
Proof.
  assert (He : album !! "holiday.jpg"
               = Some (Entry SubDirectory (Raises "Is a directory") None))
    by by_evaluation.
  split; [exact He|]. split; [reflexivity|].
  pose proof (non_files_untouched album "holiday.jpg" _ "photos" 400 400 false
                He eq_refl) as H.
  destruct H as [H _]. exact H.
Defined.

(** ** Files are handled one by one *)



(** ** The order of the effects *)

Lemma split_app {A : Type} (l1 l2 pre post : list A) (x : A) :
  l1 ++ l2 = pre ++ x :: post ->
  (exists mid, l1 = pre ++ x :: mid /\ post = mid ++ l2)
  \/ (exists mid, pre = l1 ++ mid /\ l2 = mid ++ x :: post).
Proof.
  revert pre. induction l1 as [|a l1 IH]; intros pre H.
  - right. exists pre. auto.
  - destruct pre as [|p pre].
    + injection H as -> H. left. exists l1. auto.
    + injection H as -> H. destruct (IH pre H) as [(mid & -> & ->)|(mid & -> & ->)].
      * left. exists mid. auto.
      * right. exists mid. auto.
Qed.

Lemma precedes_absent {A : Type} (x y : A) (l : list A) :
  ~ In y l -> precedes x y l.
Proof.
  intros Hn pre post ->. destruct Hn. apply in_or_app. right. now left.
Qed.

Lemma precedes_head {A : Type} (x y : A) (l : list A) :
  x <> y -> precedes x y (x :: l).
Proof.
  intros Hne [|p pre] post H; injection H as H1 H2.
  - contradiction.
  - subst p. now left.
Qed.

Lemma precedes_cons {A : Type} (x y z : A) (l : list A) :
  z <> y -> precedes x y l -> precedes x y (z :: l).
Proof.
  intros Hne Hl [|p pre] post H; injection H as H1 H2.
  - contradiction.
  - right. exact (Hl pre post H2).
Qed.

Lemma precedes_app {A : Type} (x y : A) (l1 l2 : list A) :
  precedes x y l1 -> precedes x y l2 -> precedes x y (l1 ++ l2).
Proof.
  intros H1 H2 pre post H.
  apply split_app in H as [(mid & -> & _)|(mid & -> & ->)].
  - exact (H1 pre mid eq_refl).
  - apply in_or_app. right. exact (H2 mid post eq_refl).
Qed.

Lemma precedes_chronicle folder_path min_width min_height dry_run
    (d : directory) (l : list string) (x y : event) :
  (forall name, precedes x y
                  (notices folder_path name
                     (verdict_of min_width min_height dry_run d name))) ->
  precedes x y (chronicle folder_path min_width min_height dry_run d l).
Proof.
  intros H. induction l as [|a l IH].
  - apply precedes_absent. intros [].
  - unfold chronicle in *. cbn [flat_map]. apply precedes_app; [apply H | exact IH].
Qed.

Lemma precedes_run folder_path min_width min_height dry_run
    (d : directory) (x y : event) (name : string) :
  event_file y = Some name ->
  (forall other, precedes x y
                   (notices folder_path other
                      (verdict_of min_width min_height dry_run d other))) ->
  precedes x y (effects (delete_small_images (Folder d) folder_path
                           min_width min_height dry_run)).
Proof.
  intros Hf H.
  assert (Hb : precedes x y (banner folder_path min_width min_height dry_run)).
  { apply precedes_absent. intros Hin. apply banner_no_file in Hin. congruence. }
  destruct (nil_or_not (image_files d)) as [E|E].
  - rewrite run_no_images by assumption. cbn [effects].
    apply precedes_app; [exact Hb|].
    apply precedes_absent. intros [<-|[]]. discriminate.
  - destruct (run_completed folder_path min_width min_height dry_run d E)
      as (d' & -> & _).
    cbn [effects]. apply precedes_app; [exact Hb|]. apply precedes_app.
    { apply precedes_absent. intros [<-|[<-|[]]]; discriminate. }
    apply precedes_app; [now apply precedes_chronicle|].
    apply precedes_absent. intros Hin. apply summary_no_file in Hin. congruence.
Qed.

Lemma unlinked_app (l1 l2 : list event) :
  unlinked (l1 ++ l2) = unlinked l1 ++ unlinked l2.
Proof. unfold unlinked. apply flat_map_app. Qed.

Lemma unlinked_chronicle folder_path min_width min_height dry_run
    (d : directory) (l : list string) :
  unlinked (chronicle folder_path min_width min_height dry_run d l)
  = List.filter
      (fun x => negb dry_run && reads_undersized min_width min_height d x) l.
Proof.
  induction l as [|a l IH]; [reflexivity|].
  unfold chronicle in *. cbn [flat_map List.filter]. rewrite unlinked_app, IH.
  rewrite <- is_undersized_verdict with (dry_run := dry_run).
  unfold verdict_of. destruct (d !! a) as [[k [[w h]|msg] u]|]; cbn; try reflexivity.
  - destruct ((w <? min_width) || (h <? min_height)); cbn.
    + destruct dry_run; [reflexivity|]. now destruct u.
    + now destruct dry_run.
  - now destruct dry_run.
  - now destruct dry_run.
Qed.

Lemma run_unlinked_all folder_path min_width min_height dry_run (d : directory) :
  unlinked (effects (delete_small_images (Folder d) folder_path
                       min_width min_height dry_run))
  = List.filter
      (fun x => negb dry_run && reads_undersized min_width min_height d x)
      (image_files d).
Proof.
  destruct (nil_or_not (image_files d)) as [E|E].
  - rewrite run_no_images by assumption. rewrite E.
    unfold banner. now destruct dry_run.
  - destruct (run_completed folder_path min_width min_height dry_run d E)
      as (d' & -> & _).
    cbn [effects]. rewrite !unlinked_app, unlinked_chronicle.
    unfold banner, summary.
    destruct dry_run, (0 <? error_count _); cbn; now rewrite app_nil_r.
Qed.

(** X9. No file is opened twice and [unlink] is called on no file twice;
    [unlink] is only called on files that were opened.  Whatever a run does to
    a file or prints about it comes after the file was opened, and a deletion
    is reported only after the call of [unlink]. *)
Theorem files_handled_once_in_order
    (d : directory) (folder_path : string) (min_width min_height : Z)
    (dry_run : bool) :
  List.NoDup (opened (effects (delete_small_images (Folder d) folder_path
                                 min_width min_height dry_run)))
  /\ List.NoDup (unlinked (effects (delete_small_images (Folder d) folder_path
                                      min_width min_height dry_run)))
  /\ (forall name,
        In name (unlinked (effects (delete_small_images (Folder d) folder_path
                                      min_width min_height dry_run))) ->
        In name (opened (effects (delete_small_images (Folder d) folder_path
                                    min_width min_height dry_run))))
  /\ (forall name ev,
        event_file ev = Some name -> ev <> ImageOpen name ->
        precedes (ImageOpen name) ev
          (effects (delete_small_images (Folder d) folder_path
                      min_width min_height dry_run)))
  /\ (forall name w h,
        precedes (Unlink name) (Print (Deleted name w h))
          (effects (delete_small_images (Folder d) folder_path
                      min_width min_height dry_run))).
Proof.
  split; [|split; [|split; [|split]]].
  - rewrite run_opened_all. apply image_files_NoDup.
  - rewrite run_unlinked_all. apply List.NoDup_filter, image_files_NoDup.
  - intros name. rewrite run_unlinked_all, run_opened_all, filter_In. tauto.
  - intros name ev Hf Hne. apply (precedes_run _ _ _ _ _ _ _ name Hf).
    intros other. destruct (string_dec other name) as [->|Hd].
    + destruct (verdict_of min_width min_height dry_run d name);
        apply precedes_head; congruence.
    + apply precedes_absent. intros Hin. apply in_notices in Hin. congruence.
  - intros name w h.
    apply (precedes_run folder_path min_width min_height dry_run d
             (Unlink name) (Print (Deleted name w h)) name eq_refl).
    intros other.
    destruct (verdict_of min_width min_height dry_run d other) as [e|w' h'|w' h'|w' h'|w' h' e];
      cbn [notices];
      try (apply precedes_absent; intros Hin;
           repeat (destruct Hin as [Hin|Hin]; [discriminate|]); exact Hin).
    destruct (string_dec other name) as [->|Hd].
    + apply precedes_cons; [discriminate|]. apply precedes_head. discriminate.
    + apply precedes_absent. intros Hin.
      repeat (destruct Hin as [Hin|Hin]; [try discriminate; congruence|]). exact Hin.
Qed.

(** ** The summary and the lines printed per file *)

Lemma count_app {A : Type} (f : A -> bool) (l1 l2 : list A) :
  count f (l1 ++ l2) = count f l1 + count f l2.
Proof. unfold count. rewrite List.filter_app, length_app. lia. Qed.

Lemma count_flat_map {A B : Type} (f : B -> bool) (g : A -> list B)
    (h : A -> bool) (l : list A) :
  (forall x, count f (g x) = if h x then 1 else 0) ->
  count f (flat_map g l) = count h l.
Proof.
  intros H. induction l as [|a l IH]; [reflexivity|].
  cbn [flat_map]. rewrite count_app, IH, H.
  unfold count. cbn [List.filter]. destruct (h a); cbn [length]; lia.
Qed.

Lemma count_notices_run folder_path min_width min_height dry_run
    (d : directory) (f : event -> bool) (h : verdict -> bool) :
  (forall ev, event_file ev = None -> f ev = false) ->
  (forall name v, count f (notices folder_path name v) = if h v then 1 else 0) ->
  count f (effects (delete_small_images (Folder d) folder_path
                      min_width min_height dry_run))
  = count (fun x => h (verdict_of min_width min_height dry_run d x)) (image_files d).
Proof.
  intros Hnone Hn.
  assert (Hz : forall l, (forall ev, In ev l -> event_file ev = None) -> count f l = 0).
  { intros l Hl. apply count_zero. intros ev Hin. apply Hnone, Hl, Hin. }
  assert (Hb : count f (banner folder_path min_width min_height dry_run) = 0)
    by (apply Hz; intros ev; apply banner_no_file).
  destruct (nil_or_not (image_files d)) as [E|E].
  - rewrite run_no_images by assumption. cbn [effects].
    rewrite count_app, Hb, E.
    rewrite Hz; [reflexivity|]. intros ev [<-|[]]. reflexivity.
  - destruct (run_completed folder_path min_width min_height dry_run d E)
      as (d' & -> & _).
    cbn [effects]. rewrite !count_app, Hb.
    rewrite (Hz [_; _]) by (intros ev [<-|[<-|[]]]; reflexivity).
    rewrite (Hz (summary _ _ _)) by (intros ev; apply summary_no_file).
    unfold chronicle.
    rewrite (count_flat_map f _
               (fun x => h (verdict_of min_width min_height dry_run d x)));
      [lia|]. intros x. apply Hn.
Qed.

(** X10. The counters agree with the lines printed per file: [kept_count] is
    the number of KEPT lines, [deleted_count] the number of DELETED lines,
    [error_count] the number of warnings and deletion errors, and the number a
    dry run reports as "would be deleted" is the number of WOULD DELETE
    lines. *)
Theorem counters_match_notices
    (d : directory) (folder_path : string) (min_width min_height : Z)
    (dry_run : bool) :
  exists c : counters,
    counters_of (returned (delete_small_images (Folder d) folder_path
                             min_width min_height dry_run)) = Some c
    /\ kept_count c
       = count kept_notice
           (effects (delete_small_images (Folder d) folder_path
                       min_width min_height dry_run))
    /\ deleted_count c
       = count deleted_notice
           (effects (delete_small_images (Folder d) folder_path
                       min_width min_height dry_run))
    /\ error_count c
       = count error_notice
           (effects (delete_small_images (Folder d) folder_path
                       min_width min_height dry_run))
    /\ count would_delete_notice
         (effects (delete_small_images (Folder d) folder_path
                     min_width min_height dry_run))
       = if dry_run
         then Z.of_nat (length (image_files d)) - kept_count c - error_count c
         else 0.
Proof.
  exists (tally min_width min_height dry_run d (image_files d) zero_counters).
  split; [apply run_counters|].
  destruct (tally_counts min_width min_height dry_run d (image_files d) zero_counters)
    as (Hd & Hk & He).
  pose proof (count_partition min_width min_height dry_run d (image_files d)) as Hsum.
  cbn [zero_counters deleted_count kept_count error_count] in Hd, Hk, He.
  rewrite (count_notices_run folder_path min_width min_height dry_run d
             kept_notice is_kept).
  2:{ intros [[]| | | |]; cbn; congruence. }
  2:{ intros name []; reflexivity. }
  rewrite (count_notices_run folder_path min_width min_height dry_run d
             deleted_notice is_removed).
  2:{ intros [[]| | | |]; cbn; congruence. }
  2:{ intros name []; reflexivity. }
  rewrite (count_notices_run folder_path min_width min_height dry_run d
             error_notice is_error).
  2:{ intros [[]| | | |]; cbn; congruence. }
  2:{ intros name []; reflexivity. }
  rewrite (count_notices_run folder_path min_width min_height dry_run d
             would_delete_notice is_would_remove).
  2:{ intros [[]| | | |]; cbn; congruence. }
  2:{ intros name []; reflexivity. }
  rewrite Hd, Hk, He. repeat split; try lia.
  rewrite count_would_remove_verdict.
  rewrite count_removed_verdict in Hsum.
  rewrite count_would_remove_verdict in Hsum.
  destruct dry_run; lia.
Qed.

(** ** File names and case *)

Lemma lower_ascii_dot (a : ascii) :
  Ascii.eqb (PyStr.lower_ascii a) "."%char = Ascii.eqb a "."%char.
Proof. destruct a as [[] [] [] [] [] [] [] []]; reflexivity. Qed.

Lemma lower_ascii_idem (a : ascii) :
  PyStr.lower_ascii (PyStr.lower_ascii a) = PyStr.lower_ascii a.
Proof. destruct a as [[] [] [] [] [] [] [] []]; reflexivity. Qed.

Lemma rfind_lower (s : string) :
  PyStr.rfind "."%char (PyStr.lower s) = PyStr.rfind "."%char s.
Proof.
  induction s as [|a s IH]; [reflexivity|].
  cbn [PyStr.lower PyStr.rfind]. now rewrite IH, lower_ascii_dot.
Qed.

Lemma length_lower (s : string) : String.length (PyStr.lower s) = String.length s.
Proof. induction s as [|a s IH]; [reflexivity|]. cbn. now rewrite IH. Qed.

Lemma drop_lower (i : nat) (s : string) :
  PyStr.drop i (PyStr.lower s) = PyStr.lower (PyStr.drop i s).
Proof.
  revert s. induction i as [|i IH]; intros s; [reflexivity|].
  destruct s as [|a s]; [reflexivity|]. cbn. apply IH.
Qed.

Lemma lower_idem (s : string) : PyStr.lower (PyStr.lower s) = PyStr.lower s.
Proof.
  induction s as [|a s IH]; [reflexivity|]. cbn. now rewrite IH, lower_ascii_idem.
Qed.

Lemma suffix_lower (s : string) : suffix (PyStr.lower s) = PyStr.lower (suffix s).
Proof.
  unfold suffix, PyStr.len, PyStr.slice_from.
  rewrite rfind_lower, length_lower.
  destruct ((0 <? PyStr.rfind "." s)
            && (PyStr.rfind "." s <? Z.of_nat (String.length s) - 1));
    [apply drop_lower | reflexivity].
Qed.

(** X11. Whether a file is an image file does not depend on the case of its
    name: a name and its lower-cased form are treated alike, and so are any
    two names that differ only in case. *)
Theorem is_image_file_ignores_case (name : string) :
  is_image_file (PyStr.lower name) = is_image_file name
  /\ forall other, PyStr.lower other = PyStr.lower name ->
                   is_image_file other = is_image_file name.
Proof.
  assert (H : forall n, is_image_file n
                        = PyStr.mem (suffix (PyStr.lower n)) image_extensions).
  { intros n. unfold is_image_file. now rewrite suffix_lower. }
  split.
  - unfold is_image_file. now rewrite suffix_lower, lower_idem.
  - intros other Heq. now rewrite (H other), (H name), Heq.
Qed.

(** ** File names as stem and extension *)

Lemma drop_split (n : nat) (s : string) :
  (n <= String.length s)%nat ->
  exists pre, s = (pre ++ PyStr.drop n s)%string /\ String.length pre = n.
Proof.
  revert s. induction n as [|n IH]; intros s Hn.
  - exists "". auto.
  - destruct s as [|a s]; [cbn in Hn; lia|].
    destruct (IH s) as (pre & Hs & Hl); [cbn in Hn; lia|].
    exists (String a pre). split.
    + change (String a s = String a (pre ++ PyStr.drop n s)%string).
      f_equal. exact Hs.
    + simpl. now rewrite Hl.
Qed.

Lemma suffix_split (name : string) :
  suffix name <> "" ->
  exists stem, stem <> "" /\ name = (stem ++ suffix name)%string.
Proof.
  unfold suffix, PyStr.len, PyStr.slice_from.
  destruct ((0 <? PyStr.rfind "." name)
            && (PyStr.rfind "." name <? Z.of_nat (String.length name) - 1)) eqn:E;
    [|congruence].
  intros _. apply andb_true_iff in E as [E1 E2].
  apply Z.ltb_lt in E1, E2.
  destruct (drop_split (Z.to_nat (PyStr.rfind "." name)) name) as (pre & Hs & Hl);
    [lia|].
  exists pre. split; [|exact Hs].
  intros ->. cbn in Hl. lia.
Qed.

Lemma lower_ascii_is_dot (a : ascii) : PyStr.lower_ascii a = "."%char -> a = "."%char.
Proof. destruct a as [[] [] [] [] [] [] [] []]; cbv; congruence. Qed.

Lemma recognized_plain (ext : string) :
  In (PyStr.lower ext) recognized ->
  ext <> "" /\ PyStr.rfind "."%char ext = -1.
Proof.
  intros Hin. rewrite <- rfind_lower. split.
  - intros ->. cbn in Hin. intuition discriminate.
  - cbn in Hin.
    repeat (destruct Hin as [<-|Hin]; [reflexivity|]). contradiction.
Qed.

(** X12. A name is an image file exactly when it reads [stem.ext] with a
    non-empty stem and an extension that, lower-cased, is one of the
    recognized ones.  So a name without a dot, a name made of a dot and a
    dot-free extension (such as [.png]), and a name that ends with a dot are
    not image files. *)
Theorem is_image_file_iff_stem_ext (name : string) :
  (is_image_file name = true
   <-> exists stem ext,
         name = (stem ++ "." ++ ext)%string /\ stem <> ""
         /\ In (PyStr.lower ext) recognized)
  /\ (PyStr.rfind "."%char name = -1 -> is_image_file name = false)
  /\ (PyStr.rfind "."%char name = -1 -> is_image_file ("." ++ name)%string = false)
  /\ is_image_file (name ++ ".")%string = false.
Proof.
  split; [|split; [|split]].
  - split.
    + intros H. apply is_image_file_iff in H as (x & Hin & Hx).
      assert (Hne : suffix name <> "") by (intros E; rewrite E in Hx; discriminate).
      destruct (suffix_split name Hne) as (stem & Hstem & Hn).
      destruct (suffix name) as [|c ext] eqn:Es; [congruence|].
      simpl in Hx. injection Hx as Hc Hext.
      apply lower_ascii_is_dot in Hc. subst c.
      exists stem, ext. split; [exact Hn|]. split; [exact Hstem|].
      change (PyStr.lower ext = x) in Hext. now rewrite Hext.
    + intros (stem & ext & -> & Hstem & Hin).
      destruct (recognized_plain ext Hin) as [Hne Hnd].
      now apply is_image_file_stem_ext.
  - intros Hnd. unfold is_image_file, suffix. now rewrite Hnd.
  - intros Hnd. unfold is_image_file, suffix.
    change ("." ++ name)%string with (String "." name).
    now rewrite (rfind_at_head "." name Hnd).
  - unfold is_image_file, suffix, PyStr.len.
    assert (Hdot : PyStr.rfind "."%char "." = 0) by reflexivity.
    rewrite rfind_append by (rewrite Hdot; lia).
    rewrite length_append, Hdot. unfold PyStr.len. cbn [String.length].
    replace (Z.of_nat (String.length name) + 0
             <? Z.of_nat (String.length name + 1) - 1) with false
      by (symmetry; apply Z.ltb_ge; lia).
    now rewrite andb_false_r.
Qed.

(** ** The answer at the prompt *)

Lemma append_nil_right (s : string) : (s ++ "")%string = s.
Proof.
  induction s as [|a s IH]; [reflexivity|].
  change (String a (s ++ "")%string = String a s). now rewrite IH.
Qed.

Lemma append_assoc (s t u : string) :
  ((s ++ t) ++ u)%string = (s ++ (t ++ u))%string.
Proof.
  induction s as [|a s IH]; [reflexivity|].
  change (String a ((s ++ t) ++ u)%string = String a (s ++ (t ++ u))%string).
  now rewrite IH.
Qed.

Lemma after_prefix_spec (p s r : string) :
  PyStr.after_prefix p s = Some r <-> s = (p ++ r)%string.
Proof.
  revert s. induction p as [|a p IH]; intros s.
  - cbn [PyStr.after_prefix]. change ("" ++ r)%string with r.
    split; [intros [= ->] | intros ->]; reflexivity.
  - change (String a p ++ r)%string with (String a (p ++ r)%string).
    destruct s as [|b s]; cbn [PyStr.after_prefix]; [split; discriminate|].
    destruct (Ascii.eqb_spec a b) as [->|Hne].
    + rewrite IH. split; [intros -> | intros [= ->]]; reflexivity.
    + split; [discriminate | intros [= Hb _]; congruence].
Qed.

Lemma after_space_some (s r : string) :
  PyStr.after_space s = Some r ->
  exists w, In w PyStr.whitespace /\ s = (w ++ r)%string.
Proof.
  unfold PyStr.after_space. generalize PyStr.whitespace as l.
  induction l as [|w l IH]; cbn [List.fold_right]; [discriminate|].
  destruct (PyStr.after_prefix w s) as [r'|] eqn:E.
  - intros [= ->]. apply after_prefix_spec in E. exists w. split; [now left | exact E].
  - intros H. destruct (IH H) as (w' & Hin & Hs). exists w'. split; [now right | exact Hs].
Qed.

(** No whitespace character is the beginning of another one. *)
Lemma after_space_whitespace (w r : string) :
  In w PyStr.whitespace -> PyStr.after_space (w ++ r)%string = Some r.
Proof.
  intros Hin. unfold PyStr.whitespace in Hin. cbn [List.map In] in Hin.
  repeat (destruct Hin as [<-|Hin]; [reflexivity|]). contradiction.
Qed.

Lemma whitespace_nonempty (w : string) :
  In w PyStr.whitespace -> (1 <= String.length w)%nat.
Proof.
  intros Hin. unfold PyStr.whitespace in Hin. cbn [List.map In] in Hin.
  repeat (destruct Hin as [<-|Hin]; [cbn; lia|]). contradiction.
Qed.

Lemma whitespace_no_lower_case (w : string) :
  In w PyStr.whitespace -> no_lower_case w = true.
Proof.
  intros Hin. unfold PyStr.whitespace in Hin. cbn [List.map In] in Hin.
  repeat (destruct Hin as [<-|Hin]; [reflexivity|]). contradiction.
Qed.

Lemma lower_whitespace (w : string) :
  In w PyStr.whitespace -> PyStr.lower w = w.
Proof.
  intros Hin. unfold PyStr.whitespace in Hin. cbn [List.map In] in Hin.
  repeat (destruct Hin as [<-|Hin]; [reflexivity|]). contradiction.
Qed.

Lemma lstrip_from_split (fuel : nat) (s : string) :
  exists pre, s = (pre ++ PyStr.lstrip_from fuel s)%string /\ all_space pre.
Proof.
  revert s. induction fuel as [|fuel IH]; intros s; cbn [PyStr.lstrip_from].
  - exists "". split; [reflexivity | constructor].
  - destruct (PyStr.after_space s) as [r|] eqn:E.
    + apply after_space_some in E as (w & Hin & ->).
      destruct (IH r) as (pre & Hr & Hpre).
      exists (w ++ pre)%string. split; [|now constructor].
      rewrite append_assoc. now rewrite <- Hr.
    + exists "". split; [reflexivity | constructor].
Qed.

Lemma lstrip_from_spaces (pre : string) :
  all_space pre ->
  forall fuel x, (String.length pre <= fuel)%nat -> PyStr.after_space x = None ->
                 PyStr.lstrip_from fuel (pre ++ x)%string = x.
Proof.
  induction 1 as [|w p Hin Hp IH]; intros fuel x Hfuel Hx.
  - change ("" ++ x)%string with x. destruct fuel; cbn [PyStr.lstrip_from];
      [reflexivity | now rewrite Hx].
  - rewrite length_append in Hfuel. pose proof (whitespace_nonempty w Hin).
    destruct fuel as [|fuel]; [lia|].
    cbn [PyStr.lstrip_from]. rewrite append_assoc, (after_space_whitespace w _ Hin).
    apply IH; [lia | exact Hx].
Qed.

Lemma lstrip_spaces (pre x : string) :
  all_space pre -> PyStr.after_space x = None -> PyStr.lstrip (pre ++ x)%string = x.
Proof.
  intros Hp Hx. unfold PyStr.lstrip. apply lstrip_from_spaces; auto.
  rewrite length_append. lia.
Qed.

Lemma blank_iff (s : string) : PyStr.blank s = true <-> all_space s.
Proof.
  unfold PyStr.blank. split.
  - intros H. destruct (lstrip_from_split (String.length s) s) as (pre & Hs & Hp).
    fold (PyStr.lstrip s) in Hs. destruct (PyStr.lstrip s); [|discriminate].
    rewrite append_nil_right in Hs. now subst.
  - intros H. rewrite <- (append_nil_right s).
    now rewrite (lstrip_spaces s "" H eq_refl).
Qed.

Lemma rstrip_split (s : string) :
  exists post, s = (PyStr.rstrip s ++ post)%string /\ all_space post.
Proof.
  induction s as [|a s (post & Hs & Hp)].
  - exists "". split; [reflexivity | constructor].
  - cbn [PyStr.rstrip]. destruct (PyStr.blank (String a s)) eqn:E.
    + exists (String a s). split; [reflexivity | now apply blank_iff].
    + exists post. split; [|exact Hp].
      change (String a s = String a (PyStr.rstrip s ++ post)%string).
      now rewrite <- Hs.
Qed.

Lemma rstrip_spaces (post : string) : all_space post -> PyStr.rstrip post = "".
Proof.
  intros H. apply blank_iff in H. destruct post as [|a post]; [reflexivity|].
  cbn [PyStr.rstrip]. now rewrite H.
Qed.

Lemma blank_not_space (a : ascii) (s : string) :
  PyStr.after_space (String a s) = None -> PyStr.blank (String a s) = false.
Proof.
  intros H. unfold PyStr.blank, PyStr.lstrip. cbn [String.length PyStr.lstrip_from].
  now rewrite H.
Qed.

(** [yes] and [y], followed by whitespace, strip to themselves. *)
Lemma strip_yes (pre core post : string) :
  core = "yes" \/ core = "y" ->
  all_space pre -> all_space post ->
  PyStr.strip (pre ++ core ++ post)%string = core.
Proof.
  intros Hc Hpre Hpost. pose proof (rstrip_spaces post Hpost) as Hr.
  unfold PyStr.strip.
  destruct Hc as [-> | ->].
  - change ("yes" ++ post)%string with (String "y" (String "e" (String "s" post))).
    rewrite lstrip_spaces by (auto; reflexivity).
    cbn [PyStr.rstrip].
    rewrite !blank_not_space by reflexivity. now rewrite Hr.
  - change ("y" ++ post)%string with (String "y" post).
    rewrite lstrip_spaces by (auto; reflexivity).
    cbn [PyStr.rstrip].
    rewrite !blank_not_space by reflexivity. now rewrite Hr.
Qed.

Lemma lower_append_inv (s a b : string) :
  PyStr.lower s = (a ++ b)%string ->
  exists s1 s2, s = (s1 ++ s2)%string /\ PyStr.lower s1 = a /\ PyStr.lower s2 = b.
Proof.
  revert s. induction a as [|c a IH]; intros s H.
  - exists "", s. auto.
  - destruct s as [|x s]; [discriminate|].
    change (String (PyStr.lower_ascii x) (PyStr.lower s) = String c (a ++ b)%string)
      in H.
    injection H as Hc Hs.
    destruct (IH s Hs) as (s1 & s2 & -> & H1 & H2).
    exists (String x s1), s2. repeat split; [|exact H2].
    cbn [PyStr.lower]. now rewrite Hc, H1.
Qed.

Lemma lower_ascii_inv (c : ascii) :
  ((N_of_ascii (PyStr.lower_ascii c) <? 97)
   || (122 <? N_of_ascii (PyStr.lower_ascii c)))%N = true ->
  PyStr.lower_ascii c = c.
Proof.
  destruct c as [[] [] [] [] [] [] [] []]; cbv; intros H;
    first [reflexivity | discriminate].
Qed.

Lemma lower_inv (w s : string) :
  no_lower_case w = true -> PyStr.lower s = w -> s = w.
Proof.
  revert s. induction w as [|b w IH]; intros s Hw H.
  - destruct s; [reflexivity | discriminate].
  - destruct s as [|c s]; [discriminate|].
    cbn [PyStr.lower] in H. injection H as Hc Hs.
    cbn [no_lower_case] in Hw. apply andb_true_iff in Hw as [Hb Hw].
    rewrite <- Hc in Hb. apply lower_ascii_inv in Hb.
    rewrite Hb in Hc. subst c. f_equal. now apply IH.
Qed.

Lemma lower_all_space (p : string) : all_space p -> PyStr.lower p = p.
Proof.
  induction 1 as [|w p Hin Hp IH]; [reflexivity|].
  now rewrite lower_append, (lower_whitespace w Hin), IH.
Qed.

Lemma lower_all_space_inv (p : string) :
  all_space p -> forall s, PyStr.lower s = p -> s = p.
Proof.
  induction 1 as [|w p Hin Hp IH]; intros s H.
  - destruct s; [reflexivity | discriminate].
  - apply lower_append_inv in H as (s1 & s2 & -> & H1 & H2).
    apply (lower_inv w s1 (whitespace_no_lower_case w Hin)) in H1.
    apply IH in H2. now subst.
Qed.

(** X13. The answer is accepted exactly when it is "yes" or "y", in any
    case, with any number of whitespace characters before and after it
    (whitespace as [str.strip] understands it, the no-break space
    included). *)
Theorem confirmed_iff_padded_yes (typed : string) :
  confirmed typed = true
  <-> exists pre core post,
        typed = (pre ++ core ++ post)%string
        /\ all_space pre /\ all_space post
        /\ (PyStr.lower core = "yes" \/ PyStr.lower core = "y").
Proof.
  assert (Hc : forall s, confirmed s = true
               <-> (PyStr.strip (PyStr.lower s) = "yes"
                    \/ PyStr.strip (PyStr.lower s) = "y")).
  { intros s. unfold confirmed, PyStr.mem. cbn [existsb].
    rewrite !orb_true_iff, !String.eqb_eq. intuition discriminate. }
  rewrite Hc. split.
  - intros Hyes.
    destruct (lstrip_from_split (String.length (PyStr.lower typed)) (PyStr.lower typed))
      as (pre & Hl & Hpre).
    fold (PyStr.lstrip (PyStr.lower typed)) in Hl.
    destruct (rstrip_split (PyStr.lstrip (PyStr.lower typed))) as (post & Hr & Hpost).
    fold (PyStr.strip (PyStr.lower typed)) in Hr.
    rewrite Hr in Hl.
    apply lower_append_inv in Hl as (s1 & s2 & -> & H1 & H2).
    apply lower_append_inv in H2 as (s3 & s4 & -> & H3 & H4).
    apply (lower_all_space_inv pre Hpre) in H1.
    apply (lower_all_space_inv post Hpost) in H4.
    subst s1 s4. exists pre, s3, post. rewrite H3. auto.
  - intros (pre & core & post & -> & Hpre & Hpost & Hcore).
    rewrite !lower_append, (lower_all_space pre Hpre), (lower_all_space post Hpost).
    rewrite (strip_yes pre (PyStr.lower core) post Hcore Hpre Hpost).
    exact Hcore.
Qed.


(** ** What the program deletes *)

(** X14. The program removes an entry of the folder exactly when it runs
    without [--dry-run], the operator has confirmed, and the entry is a regular
    file with a recognized suffix whose dimensions are read, are below the
    minimum in width or in height, and whose [unlink] succeeds.  Every other
    entry is in the folder afterwards. *)
Theorem main_deletes_exactly (a : args) (typed : string) (d : directory) :
  exists d' : directory,
    main_final (main a typed (Folder d)) = Folder d'
    /\ forall name e,
         d !! name = Some e ->
         (d' !! name = None
          <-> arg_dry_run a = false /\ confirmed typed = true
              /\ is_file e = true /\ is_image_file name = true
              /\ unlink_error e = None
              /\ exists w h, image e = Returns (w, h)
                             /\ (w < width a \/ h < height a))
         /\ (d' !! name <> None -> d' !! name = Some e).
Proof.
  assert (Hscan : forall dry,
    exists d' : directory,
      final (delete_small_images (Folder d) (folder a) (width a) (height a) dry)
      = Folder d'
      /\ forall name e,
           d !! name = Some e ->
           (d' !! name = None
            <-> dry = false
                /\ is_file e = true /\ is_image_file name = true
                /\ unlink_error e = None
                /\ exists w h, image e = Returns (w, h)
                               /\ (w < width a \/ h < height a))
           /\ (d' !! name <> None -> d' !! name = Some e)).
  { intros dry.
    destruct (run_final (folder a) (width a) (height a) dry d) as (d' & Hf & Hl).
    exists d'. split; [exact Hf|]. intros name e He.
    specialize (Hl name). rewrite He in Hl. rewrite Hl.
    assert (Hin : In name (image_files d)
                  <-> is_file e = true /\ is_image_file name = true).
    { rewrite in_image_files. split.
      - intros (e' & He' & H). rewrite He in He'. injection He' as <-. exact H.
      - intros H. eauto. }
    assert (Hr : is_removed (verdict_of (width a) (height a) dry d name) = true
                 <-> dry = false /\ unlink_error e = None
                     /\ exists w h, image e = Returns (w, h)
                                    /\ (w < width a \/ h < height a)).
    { unfold verdict_of. rewrite He.
      destruct (image e) as [[w h]|msg].
      - pose proof (undersized_iff (width a) (height a) w h) as Hu.
        unfold undersized in Hu. cbn [fst snd] in Hu.
        destruct ((w <? width a) || (h <? height a)).
        + destruct dry; cbn.
          * split; [discriminate | intros (H & _); discriminate].
          * destruct (unlink_error e); cbn.
            -- split; [discriminate | intros (_ & H & _); discriminate].
            -- split; [|reflexivity]. intros _. repeat split.
               exists w, h. split; [reflexivity | now apply Hu].
        + cbn. split; [discriminate|].
          intros (_ & _ & w' & h' & [= <- <-] & Hc). apply Hu in Hc. discriminate.
      - cbn. split; [discriminate|]. intros (_ & _ & w & h & H & _). discriminate. }
    destruct (in_dec string_dec name (image_files d)) as [Hi|Hi]; cbn [andb].
    - destruct (is_removed (verdict_of (width a) (height a) dry d name)) eqn:E.
      + split; [|congruence]. split; [|reflexivity]. intros _.
        destruct (proj1 Hin Hi) as [Hf1 Hf2].
        destruct (proj1 Hr eq_refl) as (H1 & H2 & H3). auto 8.
      + split; [|reflexivity]. split; [discriminate|].
        intros (H1 & _ & _ & H2 & H3).
        assert (Habs : false = true) by (apply Hr; auto).
        discriminate.
    - split; [|reflexivity]. split; [discriminate|].
      intros (_ & H1 & H2 & _). destruct Hi. apply Hin. auto. }
  unfold main. destruct (arg_dry_run a) eqn:Edry; cbn [main_final].
  - destruct (Hscan true) as (d' & Hf & H). exists d'. split; [exact Hf|].
    intros name e He. destruct (H name e He) as [H1 H2]. split; [|exact H2].
    rewrite H1. intuition discriminate.
  - destruct (confirmed typed) eqn:Ec; cbn [main_final].
    + destruct (Hscan false) as (d' & Hf & H). exists d'. split; [exact Hf|].
      intros name e He. destruct (H name e He) as [H1 H2]. split; [|exact H2].
      rewrite H1. intuition.
    + exists d. split; [reflexivity|]. intros name e He. rewrite He.
      split; [|reflexivity]. split; [discriminate|]. intros (_ & H & _). discriminate.
Qed.
